(** * The S3 proxy endpoints of raw-data-api (src/API/s3.py)

    A shallow embedding of the three request handlers ([list_s3_files],
    [head_s3_file], [get_s3_file]) and of their helpers
    ([check_object_existence], [read_meta_json], the [generate] producer of
    the listing), together with the library functions whose results the
    handlers' behaviour depends on ([str.strip], [str.lower],
    [str.endswith], [urllib.parse.quote], [datetime.strftime],
    [json.dumps]).

    Python strings are sequences of Unicode code points; a code point is an
    [N].  The storage client ([boto3]) is a record of functions that answer
    each call with an exception or a value; the handlers run in a small
    monad that threads the log of provider calls and propagates Python
    exceptions. *)

From Stdlib Require Import List NArith ZArith Bool Lia String Ascii.
From Stdlib Require Decimal DecimalFacts DecimalN DecimalZ.
Import ListNotations.

Set Implicit Arguments.
Set Default Proof Using "Type".

(** ** Python strings *)

Abbreviation codepoint := N (only parsing).
Abbreviation str := (list N) (only parsing).

(** A literal of the source, as its code points (all literals are ASCII). *)
Definition py (s : string) : str :=
  List.map N_of_ascii (list_ascii_of_string s).

Module Py.

Local Open Scope N_scope.

(** [s.lstrip(c)], [s.rstrip(c)], [s.strip(c)] for a one-character [c]. *)
Fixpoint lstrip (c : codepoint) (s : str) : str :=
  match s with
  | [] => []
  | x :: r => if x =? c then lstrip c r else s
  end.

Definition rstrip (c : codepoint) (s : str) : str :=
  rev (lstrip c (rev s)).

Definition strip (c : codepoint) (s : str) : str :=
  rstrip c (lstrip c s).

(** [s.lower()].  On ASCII this is the map A-Z to a-z.  Python also maps
    upper-case code points outside ASCII, none of them to a code point of
    [".json"]; they are left in place here, which the one use of [lower]
    in the source, a comparison of the suffix with [".json"], cannot
    observe. *)
Definition lower_cp (c : codepoint) : codepoint :=
  if (65 <=? c) && (c <=? 90) then c + 32 else c.

Definition lower (s : str) : str := List.map lower_cp s.

Fixpoint startswith (s p : str) : bool :=
  match p, s with
  | [], _ => true
  | _ :: _, [] => false
  | y :: p', x :: s' => (x =? y) && startswith s' p'
  end.

(** [s.endswith(suffix)]. *)
Definition endswith (s suffix : str) : bool :=
  startswith (rev s) (rev suffix).

End Py.

(** ** urllib.parse.quote *)

Module Urllib.

Local Open Scope N_scope.

(** [str.encode("utf-8")] of one code point.  (Code points D800-DFFF make
    Python raise; a path decoded by the server never contains them, and
    they are encoded by the three-byte rule here.) *)
Definition utf8_encode_cp (c : codepoint) : list N :=
  if c <? 128 then [c]
  else if c <? 2048 then
    [N.lor 192 (N.shiftr c 6); N.lor 128 (N.land c 63)]
  else if c <? 65536 then
    [N.lor 224 (N.shiftr c 12);
     N.lor 128 (N.land (N.shiftr c 6) 63);
     N.lor 128 (N.land c 63)]
  else
    [N.lor 240 (N.shiftr c 18);
     N.lor 128 (N.land (N.shiftr c 12) 63);
     N.lor 128 (N.land (N.shiftr c 6) 63);
     N.lor 128 (N.land c 63)].

(** [_ALWAYS_SAFE]: letters, digits and [_.-~]. *)
Definition always_safe (b : N) : bool :=
  ((65 <=? b) && (b <=? 90)) || ((97 <=? b) && (b <=? 122))
  || ((48 <=? b) && (b <=? 57))
  || (b =? 95) || (b =? 46) || (b =? 45) || (b =? 126).

(** The default [safe="/"] of [quote]. *)
Definition safe_byte (b : N) : bool := always_safe b || (b =? 47).

Definition hex_upper (d : N) : codepoint :=
  if d <? 10 then 48 + d else 55 + d.

(** [Quoter.__missing__]: a safe byte stands for itself, another one is
    written ["%XX"]. *)
Definition quoter (b : N) : str :=
  if safe_byte b then [b] else [37; hex_upper (b / 16); hex_upper (b mod 16)].

Definition quote_cp (c : codepoint) : str :=
  flat_map quoter (utf8_encode_cp c).

Definition quote (s : str) : str := flat_map quote_cp s.

End Urllib.

(** ** datetime *)

Record datetime := {
  year : Z; month : Z; day : Z; hour : Z; minute : Z; second : Z
}.

Module Datetime.

Local Open Scope Z_scope.

(** The decimal digits of a number, and [str(n)] for a Python [int]. *)
Fixpoint uint_str (u : Decimal.uint) : str :=
  match u with
  | Decimal.Nil => []
  | Decimal.D0 r => 48%N :: uint_str r
  | Decimal.D1 r => 49%N :: uint_str r
  | Decimal.D2 r => 50%N :: uint_str r
  | Decimal.D3 r => 51%N :: uint_str r
  | Decimal.D4 r => 52%N :: uint_str r
  | Decimal.D5 r => 53%N :: uint_str r
  | Decimal.D6 r => 54%N :: uint_str r
  | Decimal.D7 r => 55%N :: uint_str r
  | Decimal.D8 r => 56%N :: uint_str r
  | Decimal.D9 r => 57%N :: uint_str r
  end.

Definition str_of_N (n : N) : str := uint_str (N.to_uint n).

Definition str_of_int (z : Z) : str :=
  match z with
  | Zneg p => 45%N :: str_of_N (Npos p)
  | _ => str_of_N (Z.to_N z)
  end.

(** A field printed with two digits ([%m], [%d], [%H], [%M], [%S]). *)
Definition pad2 (z : Z) : str :=
  [(48 + Z.to_N (z / 10))%N; (48 + Z.to_N (z mod 10))%N].

(** [d.strftime("%Y-%m-%dT%H:%M:%SZ")].  [%Y] is the year in decimal as
    the C library prints it, without padding. *)
Definition strftime_iso (d : datetime) : str :=
  str_of_int (year d) ++ py "-" ++ pad2 (month d) ++ py "-" ++ pad2 (day d)
  ++ py "T" ++ pad2 (hour d) ++ py ":" ++ pad2 (minute d) ++ py ":"
  ++ pad2 (second d) ++ py "Z".

(** The proleptic Gregorian ordinal of a date, as [datetime] computes it. *)
Definition is_leap (y : Z) : bool :=
  (y mod 4 =? 0) && (negb (y mod 100 =? 0) || (y mod 400 =? 0)).

Definition days_before_year (y : Z) : Z :=
  let y1 := y - 1 in y1 * 365 + y1 / 4 - y1 / 100 + y1 / 400.

Definition days_before_month (y m : Z) : Z :=
  nth (Z.to_nat m)
      [0; 0; 31; 59; 90; 120; 151; 181; 212; 243; 273; 304; 334] 0
  + (if (2 <? m) && is_leap y then 1 else 0).

Definition ymd2ord (y m d : Z) : Z :=
  days_before_year y + days_before_month y m + d.

(** [d.weekday()]: Monday is 0. *)
Definition weekday (d : datetime) : Z :=
  (ymd2ord (year d) (month d) (day d) + 6) mod 7.

Definition day_abbr (w : Z) : str :=
  nth (Z.to_nat w)
      [py "Mon"; py "Tue"; py "Wed"; py "Thu"; py "Fri"; py "Sat"; py "Sun"]
      [].

Definition month_abbr (m : Z) : str :=
  nth (Z.to_nat m)
      [[]; py "Jan"; py "Feb"; py "Mar"; py "Apr"; py "May"; py "Jun";
       py "Jul"; py "Aug"; py "Sep"; py "Oct"; py "Nov"; py "Dec"]
      [].

(** [d.strftime("%a, %d %b %Y %H:%M:%S GMT")]. *)
Definition strftime_http (d : datetime) : str :=
  day_abbr (weekday d) ++ py ", " ++ pad2 (day d) ++ py " "
  ++ month_abbr (month d) ++ py " " ++ str_of_int (year d) ++ py " "
  ++ pad2 (hour d) ++ py ":" ++ pad2 (minute d) ++ py ":"
  ++ pad2 (second d) ++ py " GMT".

End Datetime.

(** ** json.dumps, and a reader of JSON texts *)

(** The values the listing puts into a record: a string or an integer. *)
Inductive pyval :=
| PyStr (s : str)
| PyInt (z : Z).

(** A parsed JSON text.  A string is its sequence of UTF-16 code units, as
    RFC 8259 has it: a character written literally stands for itself and
    an escape [\uXXXX] for the unit XXXX. *)
#[warnings="-register-all"]
Inductive json :=
| JNull
| JBool (b : bool)
| JNumber (z : Z)
| JString (units : list N)
| JArray (items : list json)
| JObject (members : list (list N * json)).

Module Json.

Local Open Scope N_scope.

(** *** The encoder ([json.dumps] with its defaults: [ensure_ascii=True],
    separators [", "] and [": "]) *)

Definition hex_lower (d : N) : codepoint :=
  if d <? 10 then 48 + d else 87 + d.

(** ["\\u{0:04x}"]. *)
Definition u_escape (u : N) : str :=
  [92; 117;
   hex_lower (N.land (N.shiftr u 12) 15); hex_lower (N.land (N.shiftr u 8) 15);
   hex_lower (N.land (N.shiftr u 4) 15); hex_lower (N.land u 15)].

Definition high_surrogate (c : codepoint) : N :=
  N.lor 55296 (N.land (N.shiftr (c - 65536) 10) 1023).

Definition low_surrogate (c : codepoint) : N :=
  N.lor 56320 (N.land (c - 65536) 1023).

(** [encode_basestring_ascii] on one code point. *)
Definition escape_cp (c : codepoint) : str :=
  if c =? 34 then [92; 34]
  else if c =? 92 then [92; 92]
  else if c =? 10 then [92; 110]
  else if c =? 13 then [92; 114]
  else if c =? 9 then [92; 116]
  else if c =? 8 then [92; 98]
  else if c =? 12 then [92; 102]
  else if (32 <=? c) && (c <=? 126) then [c]
  else if c <? 65536 then u_escape c
  else u_escape (high_surrogate c) ++ u_escape (low_surrogate c).

Definition encode_string (s : str) : str :=
  34 :: flat_map escape_cp s ++ [34].

Definition dumps_val (v : pyval) : str :=
  match v with
  | PyStr s => encode_string s
  | PyInt z => Datetime.str_of_int z
  end.

Fixpoint join (sep : str) (l : list str) : str :=
  match l with
  | [] => []
  | [x] => x
  | x :: r => x ++ sep ++ join sep r
  end.

Definition dumps_member (kv : str * pyval) : str :=
  encode_string (fst kv) ++ py ": " ++ dumps_val (snd kv).

(** [json.dumps(d)] for a dict [d] in insertion order. *)
Definition dumps (d : list (str * pyval)) : str :=
  py "{" ++ join (py ", ") (List.map dumps_member d) ++ py "}".

(** *** The reader: RFC 8259 with integers as the only numbers *)

Definition is_ws (c : codepoint) : bool :=
  (c =? 32) || (c =? 9) || (c =? 10) || (c =? 13).

Fixpoint skip_ws (s : str) : str :=
  match s with
  | [] => []
  | c :: r => if is_ws c then skip_ws r else s
  end.

Definition hexval (c : codepoint) : option N :=
  if (48 <=? c) && (c <=? 57) then Some (c - 48)
  else if (97 <=? c) && (c <=? 102) then Some (c - 87)
  else if (65 <=? c) && (c <=? 70) then Some (c - 55)
  else None.

Definition hex4 (a b c d : codepoint) : option N :=
  match hexval a, hexval b, hexval c, hexval d with
  | Some x3, Some x2, Some x1, Some x0 =>
      Some (4096 * x3 + 256 * x2 + 16 * x1 + x0)
  | _, _, _, _ => None
  end.

Definition unescape (e : codepoint) : option N :=
  if e =? 34 then Some 34
  else if e =? 92 then Some 92
  else if e =? 47 then Some 47
  else if e =? 98 then Some 8
  else if e =? 102 then Some 12
  else if e =? 110 then Some 10
  else if e =? 114 then Some 13
  else if e =? 116 then Some 9
  else None.

(** The characters of a string up to its closing quote. *)
Fixpoint scan_string (s : str) : option (list N * str) :=
  match s with
  | [] => None
  | c :: r =>
      if c =? 34 then Some ([], r)
      else if c =? 92 then
        match r with
        | [] => None
        | e :: r1 =>
            if e =? 117 then
              match r1 with
              | h1 :: h2 :: h3 :: h4 :: r2 =>
                  match hex4 h1 h2 h3 h4, scan_string r2 with
                  | Some u, Some (us, r3) => Some (u :: us, r3)
                  | _, _ => None
                  end
              | _ => None
              end
            else
              match unescape e, scan_string r1 with
              | Some u, Some (us, r2) => Some (u :: us, r2)
              | _, _ => None
              end
        end
      else if c <? 32 then None
      else
        match scan_string r with
        | Some (us, r') => Some (c :: us, r')
        | None => None
        end
  end.

Definition digit (c : codepoint) : option (Decimal.uint -> Decimal.uint) :=
  if c =? 48 then Some Decimal.D0 else if c =? 49 then Some Decimal.D1
  else if c =? 50 then Some Decimal.D2 else if c =? 51 then Some Decimal.D3
  else if c =? 52 then Some Decimal.D4 else if c =? 53 then Some Decimal.D5
  else if c =? 54 then Some Decimal.D6 else if c =? 55 then Some Decimal.D7
  else if c =? 56 then Some Decimal.D8 else if c =? 57 then Some Decimal.D9
  else None.

Fixpoint scan_digits (s : str) : Decimal.uint * str :=
  match s with
  | [] => (Decimal.Nil, [])
  | c :: r =>
      match digit c with
      | Some d => let (u, r') := scan_digits r in (d u, r')
      | None => (Decimal.Nil, s)
      end
  end.

(** [0] or a digit run that starts with a non-zero digit. *)
Definition scan_nat (s : str) : option (N * str) :=
  let (u, r) := scan_digits s in
  match u with
  | Decimal.Nil => None
  | Decimal.D0 Decimal.Nil => Some (0, r)
  | Decimal.D0 _ => None
  | _ => Some (N.of_uint u, r)
  end.

Definition scan_int (s : str) : option (Z * str) :=
  match s with
  | [] => None
  | c :: r =>
      if c =? 45 then
        match scan_nat r with
        | Some (n, r') => Some (Z.opp (Z.of_N n), r')
        | None => None
        end
      else
        match scan_nat s with
        | Some (n, r') => Some (Z.of_N n, r')
        | None => None
        end
  end.

Fixpoint strip_prefix (p s : str) : option str :=
  match p, s with
  | [], _ => Some s
  | _ :: _, [] => None
  | y :: p', x :: s' => if x =? y then strip_prefix p' s' else None
  end.

(** One value, and what follows it.  [fuel] bounds the number of values,
    elements and members read. *)
Fixpoint parse_value (fuel : nat) (s : str) : option (json * str) :=
  match fuel with
  | O => None
  | S fuel =>
      match skip_ws s with
      | [] => None
      | c :: r =>
          if c =? 34 then
            match scan_string r with
            | Some (us, r') => Some (JString us, r')
            | None => None
            end
          else if c =? 91 then
            match skip_ws r with
            | [] => None
            | c' :: r' =>
                if c' =? 93 then Some (JArray [], r')
                else
                  match parse_elements fuel r with
                  | Some (vs, r'') => Some (JArray vs, r'')
                  | None => None
                  end
            end
          else if c =? 123 then
            match skip_ws r with
            | [] => None
            | c' :: r' =>
                if c' =? 125 then Some (JObject [], r')
                else
                  match parse_members fuel r with
                  | Some (ms, r'') => Some (JObject ms, r'')
                  | None => None
                  end
            end
          else if c =? 110 then
            option_map (fun r' => (JNull, r')) (strip_prefix (py "ull") r)
          else if c =? 116 then
            option_map (fun r' => (JBool true, r')) (strip_prefix (py "rue") r)
          else if c =? 102 then
            option_map (fun r' => (JBool false, r')) (strip_prefix (py "alse") r)
          else
            match scan_int (c :: r) with
            | Some (z, r') => Some (JNumber z, r')
            | None => None
            end
      end
  end

with parse_elements (fuel : nat) (s : str) : option (list json * str) :=
  match fuel with
  | O => None
  | S fuel =>
      match parse_value fuel s with
      | None => None
      | Some (v, r) =>
          match skip_ws r with
          | [] => None
          | c :: r' =>
              if c =? 93 then Some ([v], r')
              else if c =? 44 then
                match parse_elements fuel r' with
                | Some (vs, r'') => Some (v :: vs, r'')
                | None => None
                end
              else None
          end
      end
  end

with parse_members (fuel : nat) (s : str)
  : option (list (list N * json) * str) :=
  match fuel with
  | O => None
  | S fuel =>
      match skip_ws s with
      | [] => None
      | q :: r0 =>
          if q =? 34 then
            match scan_string r0 with
            | None => None
            | Some (k, r1) =>
                match skip_ws r1 with
                | [] => None
                | c1 :: r2 =>
                    if c1 =? 58 then
                      match parse_value fuel r2 with
                      | None => None
                      | Some (v, r3) =>
                          match skip_ws r3 with
                          | [] => None
                          | c :: r4 =>
                              if c =? 125 then Some ([(k, v)], r4)
                              else if c =? 44 then
                                match parse_members fuel r4 with
                                | Some (ms, r5) => Some ((k, v) :: ms, r5)
                                | None => None
                                end
                              else None
                          end
                      end
                    else None
                end
            end
          else None
      end
  end.

(** A whole text: one value, then nothing but white space. *)
Definition loads (s : str) : option json :=
  match parse_value (S (List.length s)) s with
  | Some (v, r) =>
      match skip_ws r with
      | [] => Some v
      | _ :: _ => None
      end
  | None => None
  end.

(** What a parsed string holds for a Python string: its UTF-16 units. *)
Definition utf16_cp (c : codepoint) : list N :=
  if c <? 65536 then [c] else [high_surrogate c; low_surrogate c].

Definition utf16 (s : str) : list N := flat_map utf16_cp s.

Definition json_of_val (v : pyval) : json :=
  match v with
  | PyStr s => JString (utf16 s)
  | PyInt z => JNumber z
  end.

Definition json_of_dict (d : list (str * pyval)) : json :=
  JObject (List.map (fun kv => (utf16 (fst kv), json_of_val (snd kv))) d).

End Json.

(** ** Exceptions and the storage client *)

(** The exceptions the handlers meet.  [ClientError] is botocore's error
    for a provider response: it alone carries [response["Error"]["Code"]].
    [OtherError] is any other exception of a library, with its class name
    and its [str(e)]. *)
Inductive exn :=
| NoCredentialsError
| ClientError (code : str) (message : str)
| OtherError (class_name : str) (message : str)
| AttributeError (message : str)
| HTTPException (status_code : Z) (detail : str)
| RequestValidationError.

(** [type(e).__name__]. *)
Definition class_name_of (e : exn) : str :=
  match e with
  | NoCredentialsError => py "NoCredentialsError"
  | ClientError _ _ => py "ClientError"
  | OtherError n _ => n
  | AttributeError _ => py "AttributeError"
  | HTTPException _ _ => py "HTTPException"
  | RequestValidationError => py "RequestValidationError"
  end.

(** [str(e)]. *)
Definition str_of_exn (e : exn) : str :=
  match e with
  | NoCredentialsError => py "Unable to locate credentials"
  | ClientError _ m => m
  | OtherError _ m => m
  | AttributeError m => m
  | HTTPException s d => Datetime.str_of_int s ++ py ": " ++ d
  | RequestValidationError => []
  end.

(** The answer to [head_object]. *)
Record head_output := {
  head_LastModified : datetime;
  head_ContentLength : Z
}.

(** An entry of a listing page, and a page: [Contents] may be absent. *)
Record s3_object := {
  Key : str;
  LastModified : datetime;
  Size : Z
}.

Record page := { Contents : option (list s3_object) }.

(** The client [s3].  [get_object] stands for the call and the read of the
    body that follows it.  [generate_presigned_url] signs locally.
    [paginate] gives the page iterator: its pages in order, up to the
    first one whose request fails.  boto3 only builds the iterator in
    [paginate] and contacts the provider when the iterator is advanced;
    the type leaves room for a client that fails at once. *)
Record client := {
  head_object : str -> str -> exn + head_output;
  get_object : str -> str -> exn + list N;
  generate_presigned_url : str -> str -> Z -> str;
  paginate : str -> str -> exn + list (exn + page)
}.

(** The calls made on the client, in order. *)
Inductive call :=
| HeadObject (Bucket Key : str)
| GetObject (Bucket Key : str)
| GeneratePresignedUrl (Bucket Key : str) (ExpiresIn : Z)
| Paginate (Bucket Prefix : str).

(** ** The handler monad: the log of calls, and exceptions *)

Definition M (A : Type) : Type := list call -> (exn + A) * list call.

Definition ret {A} (a : A) : M A := fun log => (inr a, log).

Definition raise {A} (e : exn) : M A := fun log => (inl e, log).

Definition bind {A B} (m : M A) (k : A -> M B) : M B :=
  fun log =>
    match m log with
    | (inl e, log') => (inl e, log')
    | (inr a, log') => k a log'
    end.

(** [try: m  except Exception as e: handler e]. *)
Definition try_except {A} (m : M A) (handler : exn -> M A) : M A :=
  fun log =>
    match m log with
    | (inl e, log') => handler e log'
    | (inr a, log') => (inr a, log')
    end.

(** The result of a library function that may raise. *)
Definition lift {A} (answer : exn + A) : M A := fun log => (answer, log).

(** A call on the client: logged, and raising what the client raises. *)
Definition invoke {A} (c : call) (answer : exn + A) : M A :=
  fun log => (answer, log ++ [c]).

Notation "x <- m ;; k" := (bind m (fun x => k))
  (at level 61, m at next level, right associativity).

(** A handler run on a fresh log. *)
Definition run {A} (m : M A) : (exn + A) * list call := m [].

(** How a generator ends. *)
Inductive gen_end :=
| StopIteration
| Raises (e : exn).

Fixpoint str_eqb (a b : str) : bool :=
  match a, b with
  | [], [] => true
  | x :: a', y :: b' => N.eqb x y && str_eqb a' b'
  | _, _ => false
  end.

(** [d.get(k)] on a dict kept in insertion order. *)
Fixpoint dict_get {V} (k : str) (d : list (str * V)) : option V :=
  match d with
  | [] => None
  | (k', v) :: r => if str_eqb k k' then Some v else dict_get k r
  end.

(** * The vocabulary of the statements *)

(** The key the existence probe and the presigned URL use, and the key
    the inline read uses. *)
Definition stripped (file_path : str) : str := Py.strip 47%N file_path.

Definition encoded (file_path : str) : str :=
  Urllib.quote (Py.strip 47%N file_path).

(** [expiry] passes the check of the [expiry] parameter and the handler's
    body sees [seconds]: no value was given and the default stands, or the
    value given lies above 600 and is at most [3600 * 12 * 7 = 302400]. *)
Definition valid_expiry (expiry : option Z) (seconds : Z) : Prop :=
  match expiry with
  | None => seconds = 3600%Z
  | Some v => seconds = v /\ (600 < v <= 302400)%Z
  end.

(** The prefix [list_s3_files] lists. *)
Definition listing_prefix (folder : option str) : str :=
  Py.strip 47%N (match folder with
                 | Some f => f
                 | None => py "/HDX"
                 end) ++ py "/".

(** The entries of all pages, in the provider's order. *)
Definition all_contents (pages : list page) : list s3_object :=
  flat_map (fun response =>
              match Contents response with
              | Some c => c
              | None => []
              end) pages.

(** [sep] before every element, and between the elements. *)
Definition prefixed (sep : str) (l : list str) : list str :=
  flat_map (fun x => [sep; x]) l.

Definition intersperse (sep : str) (l : list str) : list str :=
  match l with
  | [] => []
  | x :: r => x :: prefixed sep r
  end.

Definition json_of_member (kv : str * pyval) : list N * json :=
  (Json.utf16 (fst kv), Json.json_of_val (snd kv)).

Definition not_digit_first (t : str) : Prop :=
  match t with
  | [] => True
  | c :: _ => Json.digit c = None
  end.

(** The code points [quote] leaves as they are. *)
Definition unreserved (c : codepoint) : bool := (c <? 128)%N && Urllib.safe_byte c.

Definition is_digit (c : codepoint) : bool := ((48 <=? c) && (c <=? 57))%N.

Definition four_digits (s : str) : bool :=
  match s with
  | [a; b; c; d] => forallb is_digit [a; b; c; d]
  | _ => false
  end.

(** The shape [YYYY-MM-DDTHH:MM:SSZ]. *)
Definition iso8601_utc (s : str) : bool :=
  match s with
  | [y1; y2; y3; y4; a; m1; m2; b; d1; d2; t; h1; h2; c1; n1; n2; c2;
     s1; s2; z] =>
      forallb is_digit [y1; y2; y3; y4; m1; m2; d1; d2; h1; h2; n1; n2; s1; s2]
      && forallb (fun p => N.eqb (fst p) (snd p))
           [(a, 45); (b, 45); (t, 84); (c1, 58); (c2, 58); (z, 90)]%N
  | _ => false
  end.

(** A timestamp as the provider gives them: a date of the years 1000 to
    9999 ([datetime] also has the years 1 to 999, which [%Y] prints with
    fewer than four digits), and a time of day. *)
Definition provider_timestamp (d : datetime) : Prop :=
  (1000 <= year d <= 9999 /\ 1 <= month d <= 12 /\ 1 <= day d <= 31
   /\ 0 <= hour d <= 23 /\ 0 <= minute d <= 59 /\ 0 <= second d <= 59)%Z.

(** An upper-case hexadecimal digit. *)
Definition is_upper_hex (c : codepoint) : bool :=
  (((48 <=? c) && (c <=? 57)) || ((65 <=? c) && (c <=? 70)))%N.

(** A text of unreserved code points and of escapes [%XX]. *)
Fixpoint percent_encoded (s : str) : bool :=
  match s with
  | [] => true
  | c :: r =>
      if (c =? 37)%N then
        match r with
        | h1 :: h2 :: r' =>
            is_upper_hex h1 && is_upper_hex h2 && percent_encoded r'
        | _ => false
        end
      else unreserved c && percent_encoded r
  end.

(** A Unicode code point. *)
Definition is_code_point (c : codepoint) : Prop := (c < 1114112)%N.

(** A printable ASCII character, the space included. *)
Definition printable (c : codepoint) : bool := ((32 <=? c) && (c <=? 126))%N.

Definition printable_chunk (chunk : str) : Prop :=
  forallb printable chunk = true.

(** The member [k] of a parsed object. *)
Definition json_get (k : str) (v : json) : option json :=
  match v with
  | JObject members => dict_get k members
  | _ => None
  end.

Definition day_names : list str :=
  [py "Mon"; py "Tue"; py "Wed"; py "Thu"; py "Fri"; py "Sat"; py "Sun"].

Definition month_names : list str :=
  [py "Jan"; py "Feb"; py "Mar"; py "Apr"; py "May"; py "Jun";
   py "Jul"; py "Aug"; py "Sep"; py "Oct"; py "Nov"; py "Dec"].

(** The shape of an HTTP date: [Ddd, DD Mon YYYY HH:MM:SS GMT]. *)
Definition http_date (s : str) : bool :=
  match s with
  | [w1; w2; w3; c0; p1; d1; d2; p2; m1; m2; m3; p3; y1; y2; y3; y4; p4;
     h1; h2; c1; n1; n2; c2; s1; s2; p5; g; m; t] =>
      existsb (str_eqb [w1; w2; w3]) day_names
      && existsb (str_eqb [m1; m2; m3]) month_names
      && forallb is_digit [d1; d2; y1; y2; y3; y4; h1; h2; n1; n2; s1; s2]
      && forallb (fun p => N.eqb (fst p) (snd p))
           [(c0, 44); (p1, 32); (p2, 32); (p3, 32); (p4, 32); (c1, 58);
            (c2, 58); (p5, 32); (g, 71); (m, 77); (t, 84)]%N
  | _ => false
  end.

(** ** Example buckets *)

(** The Python values [json.loads] builds from the bodies of the example
    bucket: [None], booleans, integers and lists, and of the floats the
    three for which JSON has no number. *)
#[warnings="-register-all"]
Inductive pyvalue :=
| PNone
| PBool (b : bool)
| PInt (z : Z)
| PNaN
| PInfinity (negative : bool)
| PList (items : list pyvalue).

(** What [json.loads] answers to each body of the example bucket: the
    value, or the [JSONDecodeError] with its message. *)
Definition example_parses : list (list N * (exn + pyvalue)) :=
  [(py "[1, 2]", inr (PList [PInt 1; PInt 2]));
   (py "[3]", inr (PList [PInt 3]));
   (py "[NaN]", inr (PList [PNaN]));
   (py "{oops",
    inl (OtherError (py "JSONDecodeError")
           (py "Expecting property name enclosed in double quotes: line 1 column 2 (char 1)")));
   (py "PK",
    inl (OtherError (py "JSONDecodeError")
           (py "Expecting value: line 1 column 1 (char 0)")))].

(** [json.loads] on the bodies of the example bucket.  The examples read
    no other body; one is answered as the empty body is. *)
Definition example_loads (body : list N) : exn + pyvalue :=
  match dict_get body example_parses with
  | Some answer => answer
  | None =>
      inl (OtherError (py "JSONDecodeError")
             (py "Expecting value: line 1 column 1 (char 0)"))
  end.

(** [jsonable_encoder] leaves these values as they are. *)
Definition example_encoder (content : pyvalue) : pyvalue := content.

(** [json.dumps(content, ensure_ascii=False, allow_nan=False, indent=None,
    separators=(",", ":"))] on these values: the text, or the class and
    the message of the exception.  (Older versions of Python end the
    message before the colon.) *)
Fixpoint example_dumps (content : pyvalue) : (str * str) + str :=
  match content with
  | PNone => inr (py "null")
  | PBool true => inr (py "true")
  | PBool false => inr (py "false")
  | PInt z => inr (Datetime.str_of_int z)
  | PNaN =>
      inl (py "ValueError",
           py "Out of range float values are not JSON compliant: nan")
  | PInfinity false =>
      inl (py "ValueError",
           py "Out of range float values are not JSON compliant: inf")
  | PInfinity true =>
      inl (py "ValueError",
           py "Out of range float values are not JSON compliant: -inf")
  | PList items =>
      match
        (fix each (l : list pyvalue) : (str * str) + list str :=
           match l with
           | [] => inr []
           | x :: r =>
               match example_dumps x with
               | inl e => inl e
               | inr text =>
                   match each r with
                   | inl e => inl e
                   | inr texts => inr (text :: texts)
                   end
               end
           end) items
      with
      | inl e => inl e
      | inr texts => inr (py "[" ++ Json.join (py ",") texts ++ py "]")
      end
  end.

(** [JSONResponse.render]: the text of [json.dumps], encoded as UTF-8;
    the text of these values is ASCII. *)
Definition example_render (content : pyvalue) : (str * str) + list N :=
  example_dumps content.

Definition example_naturaldate (d : datetime) : str :=
  Datetime.month_abbr (month d) ++ py " " ++ Datetime.pad2 (day d)
  ++ py " " ++ Datetime.str_of_int (year d).

Definition example_naturalsize (size : Z) : str :=
  Datetime.str_of_int size ++ py " Bytes".

Definition example_bucket : str := py "production-raw-data-api".

Definition example_time : datetime :=
  {| year := 2024; month := 1; day := 5;
     hour := 3; minute := 4; second := 59 |}.

(** The objects of the example bucket, with their bodies.  One of them
    has a key that contains a percent sign, one a body that is no JSON
    text, one a body with [NaN], which [json.loads] accepts. *)
Definition example_objects : list (str * list N) :=
  [(py "HDX/meta.json", py "[1, 2]");
   (py "HDX/a%20b.json", py "[3]");
   (py "HDX/broken.JSON", py "{oops");
   (py "HDX/stats.json", py "[NaN]");
   (py "HDX/data.zip", py "PK")].

Definition example_pages : list page :=
  [{| Contents :=
        Some [{| Key := py "HDX/meta.json"; LastModified := example_time;
                 Size := 6 |};
              {| Key := py "HDX/a b.json"; LastModified := example_time;
                 Size := 3 |}] |};
   {| Contents := None |};
   {| Contents :=
        Some [{| Key := py "HDX/data.zip"; LastModified := example_time;
                 Size := 2 |}] |}].

Definition example_s3 : client :=
  {| head_object := fun _ key =>
       match dict_get key example_objects with
       | Some body =>
           inr {| head_LastModified := example_time;
                  head_ContentLength := Z.of_nat (List.length body) |}
       | None =>
           inl (ClientError (py "404")
                  (py "An error occurred (404) when calling the HeadObject operation: Not Found"))
       end;
     get_object := fun _ key =>
       match dict_get key example_objects with
       | Some body => inr body
       | None =>
           inl (ClientError (py "NoSuchKey")
                  (py "An error occurred (NoSuchKey) when calling the GetObject operation: The specified key does not exist."))
       end;
     generate_presigned_url := fun bucket key expires =>
       py "https://" ++ bucket ++ py ".s3.amazonaws.com/" ++ key
       ++ py "?X-Amz-Expires=" ++ Datetime.str_of_int expires;
     paginate := fun _ _ => inr (List.map inr example_pages) |}.

(** A client whose credentials may not read the bucket: the provider
    answers every probe with 403. *)
Definition forbidden_s3 : client :=
  {| head_object := fun _ _ =>
       inl (ClientError (py "403")
              (py "An error occurred (403) when calling the HeadObject operation: Forbidden"));
     get_object := get_object example_s3;
     generate_presigned_url := generate_presigned_url example_s3;
     paginate := paginate example_s3 |}.

(** A client without credentials: every request to the provider raises
    [NoCredentialsError], the first page of a listing included. *)
Definition no_credentials_s3 : client :=
  {| head_object := fun _ _ => inl NoCredentialsError;
     get_object := fun _ _ => inl NoCredentialsError;
     generate_presigned_url := generate_presigned_url example_s3;
     paginate := fun _ _ => inr [inl NoCredentialsError] |}.

(** A client that fails as soon as it is asked for a listing. *)
Definition eager_no_credentials_s3 : client :=
  {| head_object := head_object no_credentials_s3;
     get_object := get_object no_credentials_s3;
     generate_presigned_url := generate_presigned_url example_s3;
     paginate := fun _ _ => inl NoCredentialsError |}.

(** * The handlers *)

Section API.

(** The parsed content of a JSON object body, with [json.loads] and
    FastAPI's [jsonable_encoder]; Starlette's [JSONResponse.render], which
    gives the body of the response or the class and the message of the
    exception it raises ([json.dumps] with [allow_nan=False] raises
    [ValueError] on NaN and the infinities, the UTF-8 encoding raises
    [UnicodeEncodeError] on a lone surrogate); [humanize.naturaldate] and
    [humanize.naturalsize]; the configured bucket name and the client. *)
Variable pyobj : Type.
Variable json_loads : list N -> exn + pyobj.
Variable jsonable_encoder : pyobj -> pyobj.
Variable render : pyobj -> (str * str) + list N.
Variable naturaldate : datetime -> str.
Variable naturalsize : Z -> str.
Variable BUCKET_NAME : str.
Variable s3 : client.

(** What a handler returns.  A [JSONResponse] holds its content and the
    body rendered from it.  A [StreamingResponse] holds its generator,
    given by the chunks it yields when run and by how it ends. *)
Inductive response :=
| Response (content : str) (status_code : Z) (headers : list (str * str))
| JSONResponse (content : pyobj) (body : list N)
| RedirectResponse (url : str)
| StreamingResponse (content : list str * gen_end) (media_type : str).

(** [Query(default, gt=..., le=...)] on an [int] parameter: FastAPI
    checks a given value before the handler's body runs. *)
Definition Query (default gt le : Z) (value : option Z) : M Z :=
  match value with
  | None => ret default
  | Some v =>
      if ((gt <? v) && (v <=? le))%Z then ret v
      else raise RequestValidationError
  end.

Definition Query_bool (default : bool) (value : option bool) : bool :=
  match value with
  | None => default
  | Some b => b
  end.

(** *** list_s3_files *)

Definition item_dict (prettify : bool) (item : s3_object)
  : list (str * pyval) :=
  let size := PyInt (Size item) in
  let last_modified := Datetime.strftime_iso (LastModified item) in
  let '(last_modified, size) :=
    if prettify
    then (naturaldate (LastModified item), PyStr (naturalsize (Size item)))
    else (last_modified, size) in
  [(py "Key", PyStr (Key item));
   (py "LastModified", PyStr last_modified);
   (py "Size", size)].

(** The inner loop of [generate]: the chunks yielded for the items of one
    page, and [first_item] afterwards. *)
Fixpoint generate_contents (prettify : bool) (contents : list s3_object)
  (first_item : bool) : list str * bool :=
  match contents with
  | [] => ([], first_item)
  | item :: rest =>
      let chunk := Json.dumps (item_dict prettify item) in
      let yielded := if negb first_item then [py ","; chunk] else [chunk] in
      let '(out, first_item') := generate_contents prettify rest false in
      (yielded ++ out, first_item')
  end.

(** The outer loop of [generate], and the closing ["]"]. *)
Fixpoint generate_pages (prettify : bool) (page_iterator : list (exn + page))
  (first_item : bool) : list str * gen_end :=
  match page_iterator with
  | [] => ([py "]"], StopIteration)
  | inl e :: _ => ([], Raises e)
  | inr response :: rest =>
      let contents :=
        match Contents response with
        | Some c => c
        | None => []
        end in
      let '(out, first_item') :=
        generate_contents prettify contents first_item in
      let '(out', fin) := generate_pages prettify rest first_item' in
      (out ++ out', fin)
  end.

Definition generate (prettify : bool) (page_iterator : list (exn + page))
  : list str * gen_end :=
  let '(out, fin) := generate_pages prettify page_iterator true in
  (py "[" :: out, fin).

Definition list_s3_files (folder : option str) (prettify : option bool)
  : M response :=
  let folder :=
    match folder with
    | Some f => f
    | None => py "/HDX"
    end in
  let prettify := Query_bool false prettify in
  let bucket_name := BUCKET_NAME in
  let folder := Py.strip 47%N folder in
  let prefix := folder ++ py "/" in
  try_except
    (page_iterator <-
       invoke (Paginate bucket_name prefix) (paginate s3 bucket_name prefix) ;;
     ret (StreamingResponse (generate prettify page_iterator)
                            (py "application/json")))
    (fun e =>
       match e with
       | NoCredentialsError =>
           raise (HTTPException 500 (py "AWS credentials not available"))
       | _ => raise e
       end).

(** *** check_object_existence, read_meta_json *)

Definition check_object_existence (bucket_name file_path : str) : M unit :=
  try_except
    (_ <- invoke (HeadObject bucket_name file_path)
                 (head_object s3 bucket_name file_path) ;;
     ret tt)
    (fun e =>
       match e with
       | NoCredentialsError =>
           raise (HTTPException 500 (py "AWS credentials not available"))
       | _ =>
           raise (HTTPException 404
                    (py "File or folder not found: " ++ file_path))
       end).

Definition read_meta_json (bucket_name file_path : str) : M pyobj :=
  try_except
    (body <- invoke (GetObject bucket_name file_path)
                    (get_object s3 bucket_name file_path) ;;
     content <- lift (json_loads body) ;;
     ret content)
    (fun e =>
       raise (HTTPException 500
                (py "Error reading meta.json: " ++ str_of_exn e))).

(** *** head_s3_file *)

Definition head_s3_file (file_path : str) : M response :=
  let bucket_name := BUCKET_NAME in
  let encoded_file_path := Urllib.quote (Py.strip 47%N file_path) in
  try_except
    (response <- invoke (HeadObject bucket_name encoded_file_path)
                        (head_object s3 bucket_name encoded_file_path) ;;
     ret (Response [] 200
            [(py "Last-Modified",
              Datetime.strftime_http (head_LastModified response));
             (py "Content-Length",
              Datetime.str_of_int (head_ContentLength response))]))
    (fun e =>
       match e with
       | ClientError code _ =>
           if str_eqb code (py "404") then ret (Response [] 404 [])
           else raise (HTTPException 500 (py "AWS Error: " ++ str_of_exn e))
       | _ =>
           raise (AttributeError
                    (py "'" ++ class_name_of e
                     ++ py "' object has no attribute 'response'"))
       end).

(** *** get_s3_file *)

(** [JSONResponse(content=...)].  The constructor renders the body at
    once, and what the rendering raises leaves the constructor. *)
Definition new_JSONResponse (content : pyobj) : M response :=
  match render content with
  | inl (class_name, message) => raise (OtherError class_name message)
  | inr body => ret (JSONResponse content body)
  end.

Definition get_s3_file (file_path : str) (expiry : option Z)
  (read_meta : option bool) : M response :=
  expiry <- Query 3600 (60 * 10) (3600 * 12 * 7) expiry ;;
  let read_meta := Query_bool true read_meta in
  let bucket_name := BUCKET_NAME in
  let file_path := Py.strip 47%N file_path in
  let encoded_file_path := Urllib.quote file_path in
  _ <- check_object_existence bucket_name encoded_file_path ;;
  if read_meta && Py.endswith (Py.lower file_path) (py ".json") then
    content <- read_meta_json bucket_name file_path ;;
    new_JSONResponse (jsonable_encoder content)
  else
    presigned_url <-
      invoke (GeneratePresignedUrl bucket_name encoded_file_path expiry)
             (inr (generate_presigned_url s3 bucket_name encoded_file_path
                     expiry)) ;;
    ret (RedirectResponse presigned_url).

(** The request is turned down by the check of [expiry], with no call on
    the client. *)
Definition rejects_expiry (file_path : str) (expiry : Z)
  (read_meta : option bool) : Prop :=
  run (get_s3_file file_path (Some expiry) read_meta)
  = (inl RequestValidationError, []).

(** The request passes the check of [expiry]: the body runs, and its
    first step is the probe. *)
Definition accepts_expiry (file_path : str) (expiry : Z)
  (read_meta : option bool) : Prop :=
  exists outcome log,
    run (get_s3_file file_path (Some expiry) read_meta)
    = (outcome, HeadObject BUCKET_NAME (encoded file_path) :: log)
    /\ outcome <> inl RequestValidationError.


(** * Properties *)

(** ** The JSON reader on the encoder's output *)

Section JsonFacts.

Import Json.
Local Open Scope N_scope.

Local Ltac div_lia :=
  Z.to_euclidean_division_equations; lia.

Lemma hexval_hex_lower d : d < 16 -> hexval (hex_lower d) = Some d.
Proof.
  intros H. unfold hexval, hex_lower.
  destruct (d <? 10) eqn:E.
  - apply N.ltb_lt in E.
    replace ((48 <=? 48 + d) && (48 + d <=? 57)) with true.
    + f_equal. lia.
    + symmetry. apply andb_true_intro. split; apply N.leb_le; lia.
  - apply N.ltb_ge in E.
    replace ((48 <=? 87 + d) && (87 + d <=? 57)) with false.
    + replace ((97 <=? 87 + d) && (87 + d <=? 102)) with true.
      * f_equal. lia.
      * symmetry. apply andb_true_intro. split; apply N.leb_le; lia.
    + symmetry. apply andb_false_intro2. apply N.leb_gt. lia.
Qed.

Lemma nibble u k : N.land (N.shiftr u k) 15 = (u / 2 ^ k) mod 16.
Proof.
  rewrite N.shiftr_div_pow2. change 15 with (N.ones 4).
  now rewrite N.land_ones.
Qed.

Lemma nibble0 u : N.land u 15 = u mod 16.
Proof. change 15 with (N.ones 4). now rewrite N.land_ones. Qed.

Lemma mod16_lt x : x mod 16 < 16.
Proof. apply N.mod_lt. discriminate. Qed.

(** The four hexadecimal digits of a 16-bit unit read back as the unit. *)
Lemma scan_u_escape u t :
  u < 65536 ->
  scan_string (u_escape u ++ t) =
  match scan_string t with
  | Some (us, r) => Some (u :: us, r)
  | None => None
  end.
Proof.
  intros Hu. unfold u_escape.
  cbn [app scan_string]. change (92 =? 34) with false.
  change (92 =? 92) with true. change (117 =? 117) with true. cbv iota.
  unfold hex4. rewrite !nibble, nibble0.
  rewrite !hexval_hex_lower by apply mod16_lt.
  change (2 ^ 12) with 4096. change (2 ^ 8) with 256. change (2 ^ 4) with 16.
  replace (4096 * ((u / 4096) mod 16) + 256 * ((u / 256) mod 16)
           + 16 * ((u / 16) mod 16) + u mod 16) with u.
  - reflexivity.
  - clear - Hu. zify. div_lia.
Qed.

Lemma lor_lt_65536 a b : a < 65536 -> b < 65536 -> N.lor a b < 65536.
Proof.
  intros Ha Hb.
  destruct (N.eq_dec (N.lor a b) 0) as [E | E]; [rewrite E; reflexivity|].
  change 65536 with (2 ^ 16). apply N.log2_lt_pow2; [lia|].
  rewrite N.log2_lor.
  assert (La : N.log2 a < 16).
  { destruct (N.eq_dec a 0) as [-> | Na]; [reflexivity|].
    apply N.log2_lt_pow2; [lia | exact Ha]. }
  assert (Lb : N.log2 b < 16).
  { destruct (N.eq_dec b 0) as [-> | Nb]; [reflexivity|].
    apply N.log2_lt_pow2; [lia | exact Hb]. }
  lia.
Qed.

Lemma land_1023_lt x : N.land x 1023 < 65536.
Proof.
  change 1023 with (N.ones 10). rewrite N.land_ones.
  assert (x mod 2 ^ 10 < 2 ^ 10) by (apply N.mod_lt; discriminate).
  change (2 ^ 10) with 1024 in *. lia.
Qed.

Lemma high_surrogate_lt c : high_surrogate c < 65536.
Proof. apply lor_lt_65536; [reflexivity | apply land_1023_lt]. Qed.

Lemma low_surrogate_lt c : low_surrogate c < 65536.
Proof. apply lor_lt_65536; [reflexivity | apply land_1023_lt]. Qed.

(** One escaped code point reads back as its UTF-16 units. *)
Lemma scan_escape_cp c t :
  scan_string (escape_cp c ++ t) =
  match scan_string t with
  | Some (us, r) => Some (utf16_cp c ++ us, r)
  | None => None
  end.
Proof.
  unfold escape_cp, utf16_cp.
  destruct (c =? 34) eqn:E34;
    [apply N.eqb_eq in E34; subst c; reflexivity|].
  destruct (c =? 92) eqn:E92;
    [apply N.eqb_eq in E92; subst c; reflexivity|].
  destruct (c =? 10) eqn:E10;
    [apply N.eqb_eq in E10; subst c; reflexivity|].
  destruct (c =? 13) eqn:E13;
    [apply N.eqb_eq in E13; subst c; reflexivity|].
  destruct (c =? 9) eqn:E9;
    [apply N.eqb_eq in E9; subst c; reflexivity|].
  destruct (c =? 8) eqn:E8;
    [apply N.eqb_eq in E8; subst c; reflexivity|].
  destruct (c =? 12) eqn:E12;
    [apply N.eqb_eq in E12; subst c; reflexivity|].
  destruct ((32 <=? c) && (c <=? 126)) eqn:Epr.
  - apply andb_prop in Epr. destruct Epr as [Hlo Hhi].
    apply N.leb_le in Hlo. apply N.leb_le in Hhi.
    assert (H16 : (c <? 65536) = true) by (apply N.ltb_lt; lia).
    assert (H32 : (c <? 32) = false) by (apply N.ltb_ge; lia).
    rewrite H16. cbn [app scan_string]. rewrite E34, E92, H32.
    destruct (scan_string t) as [[us r]|]; reflexivity.
  - destruct (c <? 65536) eqn:H16.
    + apply N.ltb_lt in H16. now rewrite scan_u_escape.
    + rewrite <- app_assoc.
      rewrite scan_u_escape by apply high_surrogate_lt.
      rewrite scan_u_escape by apply low_surrogate_lt.
      destruct (scan_string t) as [[us r]|]; reflexivity.
Qed.

Lemma scan_string_escaped s t :
  scan_string (flat_map escape_cp s ++ 34 :: t) = Some (utf16 s, t).
Proof.
  induction s as [|c s IH]; [reflexivity|].
  cbn [flat_map]. rewrite <- app_assoc, scan_escape_cp, IH. reflexivity.
Qed.

Lemma scan_encode_string s t :
  scan_string (tl (encode_string s) ++ t) = Some (utf16 s, t).
Proof.
  unfold encode_string. cbn [tl]. rewrite <- app_assoc.
  apply scan_string_escaped.
Qed.

(** *** Integers *)

Lemma scan_digits_uint_str u t :
  not_digit_first t -> scan_digits (Datetime.uint_str u ++ t) = (u, t).
Proof.
  intros Ht.
  induction u; cbn [Datetime.uint_str app scan_digits];
    try (change (digit 48) with (Some Decimal.D0);
         change (digit 49) with (Some Decimal.D1);
         change (digit 50) with (Some Decimal.D2);
         change (digit 51) with (Some Decimal.D3);
         change (digit 52) with (Some Decimal.D4);
         change (digit 53) with (Some Decimal.D5);
         change (digit 54) with (Some Decimal.D6);
         change (digit 55) with (Some Decimal.D7);
         change (digit 56) with (Some Decimal.D8);
         change (digit 57) with (Some Decimal.D9);
         cbv iota; rewrite IHu; reflexivity).
  destruct t as [|c t']; [reflexivity|].
  cbn in Ht. cbn [scan_digits]. now rewrite Ht.
Qed.

Lemma to_uint_normal n : Decimal.unorm (N.to_uint n) = N.to_uint n.
Proof.
  rewrite <- (DecimalN.Unsigned.of_to n) at 2.
  now rewrite DecimalN.Unsigned.to_of.
Qed.

Lemma scan_nat_str_of_N n t :
  not_digit_first t -> scan_nat (Datetime.str_of_N n ++ t) = Some (n, t).
Proof.
  intros Ht. unfold scan_nat, Datetime.str_of_N.
  rewrite scan_digits_uint_str by exact Ht.
  pose proof (to_uint_normal n) as Hn.
  pose proof (DecimalN.Unsigned.of_to n) as Hof.
  destruct (N.to_uint n) as [|u|u|u|u|u|u|u|u|u|u] eqn:E;
    try (now rewrite Hof).
  - exfalso. revert Hn. apply DecimalFacts.unorm_nonnil.
  - destruct u as [|u|u|u|u|u|u|u|u|u|u]; try (now rewrite <- Hof);
      exfalso; rewrite DecimalFacts.unorm_D0 in Hn;
      unfold Decimal.unorm in Hn;
      match type of Hn with
      | context [Decimal.nzhead ?d] =>
          pose proof (@DecimalFacts.nzhead_nonzero d) as Hz;
          destruct (Decimal.nzhead d) eqn:Ez;
          try discriminate Hn; try (eapply Hz; exact Hn)
      end.
Qed.

Lemma uint_str_first u :
  u <> Decimal.Nil ->
  exists c r, Datetime.uint_str u = c :: r /\ 48 <= c <= 57.
Proof.
  intros Hu. destruct u; [congruence| ..]; cbn [Datetime.uint_str];
    eexists; eexists; (split; [reflexivity | lia]).
Qed.

Lemma str_of_N_first n :
  exists c r, Datetime.str_of_N n = c :: r /\ 48 <= c <= 57.
Proof.
  apply uint_str_first. rewrite <- to_uint_normal.
  apply DecimalFacts.unorm_nonnil.
Qed.

Lemma str_of_int_first z :
  exists c r, Datetime.str_of_int z = c :: r /\ (c = 45 \/ 48 <= c <= 57).
Proof.
  destruct z as [|p|p]; cbn [Datetime.str_of_int].
  - destruct (str_of_N_first (Z.to_N 0)) as (c & r & E & H); eauto.
  - destruct (str_of_N_first (Z.to_N (Zpos p))) as (c & r & E & H); eauto.
  - eauto.
Qed.

Lemma scan_int_str_of_int z t :
  not_digit_first t -> scan_int (Datetime.str_of_int z ++ t) = Some (z, t).
Proof.
  intros Ht.
  assert (Hnn : forall n, scan_int (Datetime.str_of_N n ++ t)
                          = Some (Z.of_N n, t)).
  { intros n. destruct (str_of_N_first n) as (c & r & E & Hc).
    pose proof (scan_nat_str_of_N n t Ht) as Hs. rewrite E in *.
    cbn [app scan_int] in *.
    assert (E45 : (c =? 45) = false) by (apply N.eqb_neq; lia).
    rewrite E45, Hs. reflexivity. }
  destruct z as [|p|p]; cbn [Datetime.str_of_int].
  - apply (Hnn 0).
  - apply (Hnn (Npos p)).
  - cbn [app scan_int]. change (45 =? 45) with true. cbv iota.
    rewrite scan_nat_str_of_N by exact Ht. reflexivity.
Qed.

(** *** Values, members, records *)

Lemma parse_value_space f s : parse_value f (32 :: s) = parse_value f s.
Proof. destruct f; reflexivity. Qed.

Lemma parse_members_space f s : parse_members f (32 :: s) = parse_members f s.
Proof. destruct f; reflexivity. Qed.

Lemma parse_value_string f s t :
  parse_value (S f) (encode_string s ++ t) = Some (JString (utf16 s), t).
Proof.
  pose proof (scan_encode_string s t) as H.
  unfold encode_string in *. cbn [tl app] in H.
  cbn [app parse_value skip_ws]. change (is_ws 34) with false.
  cbv iota. change (34 =? 34) with true. cbv iota.
  rewrite H. reflexivity.
Qed.

Lemma parse_value_int f z t :
  not_digit_first t ->
  parse_value (S f) (Datetime.str_of_int z ++ t) = Some (JNumber z, t).
Proof.
  intros Ht. pose proof (scan_int_str_of_int z t Ht) as Hs.
  destruct (str_of_int_first z) as (c & r & E & Hc). rewrite E in *.
  cbn [app] in *. cbn [parse_value skip_ws].
  assert (Hws : is_ws c = false).
  { unfold is_ws.
    repeat (apply orb_false_intro); apply N.eqb_neq; lia. }
  rewrite Hws.
  assert (E1 : (c =? 34) = false) by (apply N.eqb_neq; lia).
  assert (E2 : (c =? 91) = false) by (apply N.eqb_neq; lia).
  assert (E3 : (c =? 123) = false) by (apply N.eqb_neq; lia).
  assert (E4 : (c =? 110) = false) by (apply N.eqb_neq; lia).
  assert (E5 : (c =? 116) = false) by (apply N.eqb_neq; lia).
  assert (E6 : (c =? 102) = false) by (apply N.eqb_neq; lia).
  rewrite E1, E2, E3, E4, E5, E6, Hs. reflexivity.
Qed.

Lemma parse_value_dumps_val f v t :
  not_digit_first t ->
  parse_value (S f) (dumps_val v ++ t) = Some (json_of_val v, t).
Proof.
  intros Ht. destruct v as [s|z]; cbn [dumps_val json_of_val].
  - apply parse_value_string.
  - now apply parse_value_int.
Qed.

Lemma parse_member f kv t :
  not_digit_first t ->
  parse_members (S (S f)) (dumps_member kv ++ t) =
  match skip_ws t with
  | [] => None
  | c :: r4 =>
      if c =? 125 then Some ([json_of_member kv], r4)
      else if c =? 44 then
        match parse_members (S f) r4 with
        | Some (ms, r5) => Some (json_of_member kv :: ms, r5)
        | None => None
        end
      else None
  end.
Proof.
  intros Ht. unfold dumps_member.
  pose proof (scan_encode_string (fst kv)
                (py ": " ++ dumps_val (snd kv) ++ t)) as Hk.
  rewrite <- !app_assoc.
  unfold encode_string in *. cbn [tl app] in Hk.
  cbn [app]. 
  change (parse_members (S (S f)) (34 :: ?x)) with
    (match scan_string x with
     | None => None
     | Some (k, r1) =>
         match skip_ws r1 with
         | [] => None
         | c1 :: r2 =>
             if c1 =? 58 then
               match parse_value (S f) r2 with
               | None => None
               | Some (v, r3) =>
                   match skip_ws r3 with
                   | [] => None
                   | c :: r4 =>
                       if c =? 125 then Some ([(k, v)], r4)
                       else if c =? 44 then
                         match parse_members (S f) r4 with
                         | Some (ms, r5) => Some ((k, v) :: ms, r5)
                         | None => None
                         end
                       else None
                   end
               end
             else None
         end
     end).
  rewrite Hk.
  change (py ": " ++ ?x) with (58 :: 32 :: x).
  cbn [skip_ws]. change (is_ws 58) with false. cbv iota.
  change (58 =? 58) with true. cbv iota.
  rewrite parse_value_space, parse_value_dumps_val by exact Ht.
  reflexivity.
Qed.

Lemma parse_members_join d : forall kv f t,
  (List.length d + 2 <= f)%nat ->
  parse_members f
    (join (py ", ") (List.map dumps_member (kv :: d)) ++ 125 :: t)
  = Some (List.map json_of_member (kv :: d), t).
Proof.
  induction d as [|kv' d IH]; intros kv f t Hf.
  - destruct f as [|[|f]]; [cbn in Hf; lia | cbn in Hf; lia |].
    cbn [List.map join]. rewrite parse_member by reflexivity.
    reflexivity.
  - destruct f as [|[|f]]; [cbn in Hf; lia | cbn in Hf; lia |].
    change (join (py ", ") (List.map dumps_member (kv :: kv' :: d)))
      with (dumps_member kv
            ++ py ", " ++ join (py ", ") (List.map dumps_member (kv' :: d))).
    rewrite <- !app_assoc.
    rewrite parse_member by reflexivity.
    change (py ", " ++ ?x) with (44 :: 32 :: x).
    cbn [skip_ws]. change (is_ws 44) with false. cbv iota.
    change (44 =? 125) with false. change (44 =? 44) with true. cbv iota.
    rewrite parse_members_space, IH by (cbn in Hf |- *; lia).
    reflexivity.
Qed.

Lemma parse_value_object f r :
  parse_value (S f) (123 :: 34 :: r) =
  match parse_members f (34 :: r) with
  | Some (ms, r') => Some (JObject ms, r')
  | None => None
  end.
Proof. reflexivity. Qed.

(** A record written by [dumps] reads back as the object it denotes. *)
Lemma parse_value_dumps d f t :
  (List.length d + 2 <= f)%nat ->
  parse_value f (dumps d ++ t) = Some (json_of_dict d, t).
Proof.
  intros Hf. destruct f as [|f]; [lia|].
  unfold dumps, json_of_dict. destruct d as [|kv d].
  - reflexivity.
  - change (py "{" ++ ?x) with (123 :: x).
    change (?x ++ py "}") with (x ++ [125]).
    cbn [app]. rewrite <- app_assoc.
    pose proof (@parse_members_join d kv f t) as Hm.
    cbn [app] in *.
    assert (Hq : exists r, join (py ", ") (List.map dumps_member (kv :: d))
                           = 34 :: r).
    { destruct d; cbn [List.map join]; unfold dumps_member, encode_string;
        cbn [app]; eauto. }
    destruct Hq as [r Hr]. rewrite Hr in *. cbn [app] in *.
    rewrite parse_value_object. rewrite Hm by (cbn in Hf; lia). reflexivity.
Qed.

(** *** Arrays of records *)

Lemma parse_elements_join ds : forall d f t,
  Forall (fun d' => (List.length d' + 2 <= 5)%nat) (d :: ds) ->
  (List.length ds + 6 <= f)%nat ->
  parse_elements f (join (py ",") (List.map dumps (d :: ds)) ++ 93 :: t)
  = Some (List.map json_of_dict (d :: ds), t).
Proof.
  induction ds as [|d' ds IH]; intros d f t Hd Hf;
    (destruct f as [|f]; [cbn in Hf; lia|]);
    inversion Hd as [|? ? Hd1 Hd2]; subst.
  - cbn [List.map join parse_elements].
    rewrite parse_value_dumps by (cbn in Hf; lia).
    reflexivity.
  - change (join (py ",") (List.map dumps (d :: d' :: ds)))
      with (dumps d ++ py "," ++ join (py ",") (List.map dumps (d' :: ds))).
    rewrite <- !app_assoc. cbn [parse_elements].
    rewrite parse_value_dumps by (cbn in Hf; lia).
    change (py "," ++ ?x) with (44 :: x).
    cbn [skip_ws]. change (is_ws 44) with false. cbv iota.
    change (44 =? 93) with false. change (44 =? 44) with true. cbv iota.
    rewrite IH by (try assumption; cbn in Hf |- *; lia).
    reflexivity.
Qed.

Lemma join_length_ge sep (l : list str) :
  (List.length (List.concat l) <= List.length (join sep l))%nat.
Proof.
  induction l as [|x [|y l] IH]; cbn [join List.concat] in *.
  - lia.
  - rewrite app_nil_r. lia.
  - rewrite !length_app in *. lia.
Qed.

Lemma dumps_first d : exists r, dumps d = 123 :: r.
Proof. unfold dumps. cbn [py List.map list_ascii_of_string app]. eauto. Qed.

Lemma join_dumps_first sep d ds :
  exists r, join sep (List.map dumps (d :: ds)) = 123 :: r.
Proof.
  destruct (dumps_first d) as [r Hr].
  destruct ds; cbn [List.map join]; rewrite Hr; cbn [app]; eauto.
Qed.

Lemma parse_value_array f r :
  parse_value (S f) (91 :: 123 :: r) =
  match parse_elements f (123 :: r) with
  | Some (vs, r') => Some (JArray vs, r')
  | None => None
  end.
Proof. reflexivity. Qed.

Lemma Json_dumps_length d : List.length d = 3%nat -> (6 <= List.length (dumps d))%nat.
Proof.
  destruct d as [|a [|b [|c [|e d]]]]; try discriminate. intros _.
  unfold dumps. cbn [List.map join].
  rewrite !length_app. cbn [py List.map list_ascii_of_string List.length].
  lia.
Qed.

Lemma concat_dumps_length ds :
  Forall (fun d => List.length d = 3%nat) ds ->
  (6 * List.length ds <= List.length (List.concat (List.map dumps ds)))%nat.
Proof.
  induction 1 as [|d ds Hd _ IH]; cbn [List.map List.concat List.length].
  - lia.
  - rewrite length_app. pose proof (Json_dumps_length d Hd). lia.
Qed.

(** The text of an array of three-member records is a JSON text, and it
    denotes the array of these records. *)
Lemma loads_array ds :
  Forall (fun d => List.length d = 3%nat) ds ->
  loads (py "[" ++ join (py ",") (List.map dumps ds) ++ py "]")
  = Some (JArray (List.map json_of_dict ds)).
Proof.
  intros Hds. destruct ds as [|d ds]; [reflexivity|].
  unfold loads.
  change (py "[" ++ ?x) with (91 :: x).
  change (?x ++ py "]") with (x ++ [93]).
  set (text := join (py ",") (List.map dumps (d :: ds))).
  assert (Hlen : (List.length ds + 6 <= List.length (91%N :: text ++ [93%N]))%nat).
  { pose proof (join_length_ge (py ",") (List.map dumps (d :: ds))) as Hj.
    pose proof (concat_dumps_length Hds) as Hc. fold text in Hj.
    cbn [List.length] in *. rewrite length_app. cbn [List.length]. lia. }
  assert (Hsmall : Forall (fun d' : list (list N * pyval) =>
                             (List.length d' + 2 <= 5)%nat) (d :: ds)).
  { eapply Forall_impl; [|exact Hds]. cbn beta. intros a Ha. rewrite Ha. lia. }
  pose proof (@parse_elements_join ds d _ [] Hsmall Hlen) as Hp.
  fold text in Hp.
  destruct (join_dumps_first (py ",") d ds) as [r Hr]. fold text in Hr.
  clearbody text. subst text. cbn [app] in *.
  rewrite parse_value_array, Hp. reflexivity.
Qed.

End JsonFacts.

(** ** Percent-quoting and stripping *)

Section QuoteFacts.

Import Urllib.
Local Open Scope N_scope.

Lemma quoter_length b : (1 <= List.length (quoter b))%nat.
Proof. unfold quoter. destruct (safe_byte b); cbn; lia. Qed.

Lemma quote_cp_unreserved c : unreserved c = true -> quote_cp c = [c].
Proof.
  unfold unreserved, quote_cp, utf8_encode_cp, quoter.
  intros H. apply andb_prop in H. destruct H as [H1 H2].
  rewrite H1. cbn [flat_map]. rewrite H2. reflexivity.
Qed.

Lemma quote_cp_reserved c :
  unreserved c = false -> (2 <= List.length (quote_cp c))%nat.
Proof.
  unfold unreserved, quote_cp, utf8_encode_cp. intros H.
  destruct (c <? 128) eqn:E.
  - cbn [andb] in H. cbn [flat_map]. unfold quoter. rewrite H. cbn. lia.
  - destruct (c <? 2048); [|destruct (c <? 65536)];
      cbn [flat_map]; rewrite !length_app;
      repeat match goal with
             | |- context [List.length (quoter ?b)] =>
                 let Hq := fresh "Hq" in
                 pose proof (quoter_length b) as Hq;
                 generalize dependent (List.length (quoter b)); intros
             end; lia.
Qed.

Lemma quote_length s : (List.length s <= List.length (quote s))%nat.
Proof.
  induction s as [|c s IH]; [cbn; lia|].
  unfold quote in IH |- *. cbn [flat_map]. rewrite length_app.
  cbn [List.length].
  destruct (unreserved c) eqn:E.
  - rewrite (quote_cp_unreserved c E). cbn. lia.
  - pose proof (quote_cp_reserved c E). lia.
Qed.

(** [quote] is the identity exactly on the strings of unreserved code
    points. *)
Lemma quote_identity s : quote s = s <-> forallb unreserved s = true.
Proof.
  induction s as [|c s IH]; [split; reflexivity|].
  unfold quote in IH |- *. cbn [flat_map forallb].
  destruct (unreserved c) eqn:E.
  - rewrite (quote_cp_unreserved c E). cbn [app andb]. rewrite <- IH.
    split; [intros H; injection H as H; exact H | intros H; f_equal; exact H].
  - cbn [andb]. split; [|discriminate]. intros H. exfalso.
    apply (f_equal (@List.length N)) in H.
    rewrite length_app in H. cbn [List.length] in H.
    pose proof (quote_cp_reserved c E) as Hc.
    pose proof (quote_length s) as Hs.
    unfold quote in Hs. lia.
Qed.

Lemma lstrip_split c s :
  exists l, s = l ++ Py.lstrip c s /\ Forall (fun x => x = c) l.
Proof.
  induction s as [|x s (l & Hl & Hc)]; [exists []; split; [reflexivity|constructor]|].
  cbn [Py.lstrip]. destruct (x =? c) eqn:E.
  - apply N.eqb_eq in E. subst x. exists (c :: l). split.
    + cbn [app]. now rewrite <- Hl.
    + now constructor.
  - exists []. split; [reflexivity | constructor].
Qed.

Lemma strip_split c s :
  exists l r, s = l ++ Py.strip c s ++ r
              /\ Forall (fun x => x = c) l /\ Forall (fun x => x = c) r.
Proof.
  unfold Py.strip, Py.rstrip.
  destruct (lstrip_split c s) as (l & Hl & Hcl).
  destruct (lstrip_split c (List.rev (Py.lstrip c s))) as (r & Hr & Hcr).
  exists l, (List.rev r). repeat split.
  - rewrite <- rev_app_distr, <- Hr, rev_involutive. exact Hl.
  - exact Hcl.
  - now apply Forall_rev.
Qed.

Lemma forallb_slashes l :
  Forall (fun x => x = 47) l -> forallb unreserved l = true.
Proof.
  induction 1 as [|x l Hx _ IH]; [reflexivity|]. subst x. cbn [forallb].
  now rewrite IH.
Qed.

(** A path that quoting changes is still changed after its outer slashes
    are stripped. *)
Lemma quote_strip_changes s :
  quote s <> s -> quote (Py.strip 47 s) <> Py.strip 47 s.
Proof.
  intros Hs Hq. apply Hs. apply quote_identity. apply quote_identity in Hq.
  destruct (strip_split 47 s) as (l & r & E & Hl & Hr).
  rewrite E, !forallb_app, Hq, (forallb_slashes Hl), (forallb_slashes Hr).
  reflexivity.
Qed.

(** A space, a [#], a code point outside ASCII: each makes quoting change
    the path. *)
Lemma quote_changes c s :
  In c s -> c = 32 \/ c = 35 \/ 128 <= c -> quote s <> s.
Proof.
  intros Hin Hc Hq. apply quote_identity in Hq.
  rewrite forallb_forall in Hq. specialize (Hq c Hin).
  destruct Hc as [-> | [-> | Hc]]; try discriminate Hq.
  unfold unreserved in Hq. apply andb_prop in Hq. destruct Hq as [Hq _].
  apply N.ltb_lt in Hq. lia.
Qed.

End QuoteFacts.

(** ** The listing producer *)

Section GenerateFacts.

Variable prettify : bool.

Let record (item : s3_object) : str := Json.dumps (item_dict prettify item).

Lemma generate_contents_rest contents :
  generate_contents prettify contents false =
  (prefixed (py ",") (List.map record contents), false).
Proof.
  induction contents as [|item rest IH]; [reflexivity|].
  cbn [generate_contents negb]. rewrite IH. reflexivity.
Qed.

Lemma generate_contents_first contents :
  generate_contents prettify contents true =
  (intersperse (py ",") (List.map record contents),
   match contents with [] => true | _ :: _ => false end).
Proof.
  destruct contents as [|item rest]; [reflexivity|].
  cbn [generate_contents negb]. rewrite generate_contents_rest. reflexivity.
Qed.

Lemma generate_pages_ok pages : forall first_item,
  generate_pages prettify (List.map inr pages) first_item =
  ((if first_item
    then intersperse (py ",") (List.map record (all_contents pages))
    else prefixed (py ",") (List.map record (all_contents pages)))
   ++ [py "]"], StopIteration).
Proof.
  induction pages as [|response pages IH]; intros first_item.
  - destruct first_item; reflexivity.
  - cbn [List.map generate_pages all_contents flat_map].
    fold (all_contents pages).
    set (contents := match Contents response with
                     | Some c => c
                     | None => []
                     end).
    destruct first_item.
    + rewrite generate_contents_first. destruct contents as [|item rest].
      * rewrite IH. reflexivity.
      * rewrite IH. cbn [List.map app intersperse].
        unfold prefixed. rewrite map_app, flat_map_app, <- app_assoc.
        reflexivity.
    + rewrite generate_contents_rest, IH.
      unfold prefixed. rewrite map_app, flat_map_app, <- app_assoc.
      reflexivity.
Qed.

Lemma concat_prefixed sep l :
  List.concat (prefixed sep l) = flat_map (fun x => sep ++ x) l.
Proof.
  induction l as [|x l IH]; [reflexivity|].
  cbn [prefixed flat_map List.concat app] in *. unfold prefixed in IH.
  rewrite IH, <- app_assoc. reflexivity.
Qed.

Lemma join_cons sep x l :
  Json.join sep (x :: l) = x ++ flat_map (fun y => sep ++ y) l.
Proof.
  revert x. induction l as [|y l IH]; intros x.
  - cbn. now rewrite app_nil_r.
  - change (Json.join sep (x :: y :: l)) with (x ++ sep ++ Json.join sep (y :: l)).
    rewrite IH. cbn [flat_map]. now rewrite <- app_assoc.
Qed.

Lemma concat_intersperse sep l :
  List.concat (intersperse sep l) = Json.join sep l.
Proof.
  destruct l as [|x l]; [reflexivity|].
  cbn [intersperse List.concat]. now rewrite concat_prefixed, join_cons.
Qed.

End GenerateFacts.

(** ** Timestamps *)

Section TimestampFacts.

Local Open Scope Z_scope.

Lemma years_four_digits :
  forallb (fun k => four_digits (Datetime.str_of_int (1000 + Z.of_nat k)))
          (seq 0 (Z.to_nat 9000)) = true.
Proof. vm_compute. reflexivity. Qed.

Lemma year_four_digits y :
  1000 <= y <= 9999 -> four_digits (Datetime.str_of_int y) = true.
Proof.
  intros Hy. pose proof years_four_digits as H.
  rewrite forallb_forall in H.
  specialize (H (Z.to_nat (y - 1000))).
  replace (1000 + Z.of_nat (Z.to_nat (y - 1000))) with y in H by lia.
  apply H. apply in_seq. lia.
Qed.

Lemma pad2_digits z :
  0 <= z <= 99 ->
  exists a b, Datetime.pad2 z = [a; b] /\ is_digit a = true /\ is_digit b = true.
Proof.
  intros Hz. unfold Datetime.pad2. eexists; eexists.
  split; [reflexivity|].
  assert (0 <= z / 10 <= 9 /\ 0 <= z mod 10 <= 9)
    by (clear - Hz; Z.to_euclidean_division_equations; lia).
  unfold is_digit.
  split; apply andb_true_intro; split; apply N.leb_le; lia.
Qed.

Lemma strftime_iso_shape d :
  provider_timestamp d -> iso8601_utc (Datetime.strftime_iso d) = true.
Proof.
  intros (Hy & Hm & Hd & Hh & Hn & Hs). unfold Datetime.strftime_iso.
  pose proof (year_four_digits Hy) as Y.
  destruct (Datetime.str_of_int (year d)) as [|y1 [|y2 [|y3 [|y4 [|]]]]];
    try discriminate Y.
  destruct (@pad2_digits (month d)) as (m1 & m2 & -> & M1 & M2); [lia|].
  destruct (@pad2_digits (day d)) as (d1 & d2 & -> & D1 & D2); [lia|].
  destruct (@pad2_digits (hour d)) as (h1 & h2 & -> & H1 & H2); [lia|].
  destruct (@pad2_digits (minute d)) as (n1 & n2 & -> & N1 & N2); [lia|].
  destruct (@pad2_digits (second d)) as (s1 & s2 & -> & S1 & S2); [lia|].
  cbn [four_digits forallb] in Y.
  cbn [app py List.map list_ascii_of_string iso8601_utc forallb].
  repeat (apply andb_prop in Y; destruct Y as [? Y]).
  repeat match goal with H : is_digit _ = true |- _ => rewrite H; clear H end.
  reflexivity.
Qed.

End TimestampFacts.

(** ** The handlers *)

Lemma str_eqb_eq a : forall b, str_eqb a b = true <-> a = b.
Proof.
  induction a as [|x a IH]; intros [|y b]; cbn [str_eqb];
    try (split; discriminate); [split; reflexivity|].
  rewrite andb_true_iff, N.eqb_eq, IH.
  split; [intros [-> ->]; reflexivity | intros H; inversion H; split; reflexivity].
Qed.

Lemma str_eqb_neq a b : a <> b -> str_eqb a b = false.
Proof.
  intros H. destruct (str_eqb a b) eqn:E; [|reflexivity].
  apply str_eqb_eq in E. contradiction.
Qed.

Lemma Query_valid expiry seconds log :
  valid_expiry expiry seconds ->
  Query 3600 (60 * 10) (3600 * 12 * 7) expiry log = (inr seconds, log).
Proof.
  destruct expiry as [v|]; cbn [valid_expiry Query].
  - intros [-> Hv].
    assert (E : ((60 * 10 <? v) && (v <=? 3600 * 12 * 7))%Z = true).
    { apply andb_true_intro. split; [apply Z.ltb_lt | apply Z.leb_le]; lia. }
    rewrite E. reflexivity.
  - intros ->. reflexivity.
Qed.

Lemma Query_invalid v log :
  (v <= 600 \/ 302400 < v)%Z ->
  Query 3600 (60 * 10) (3600 * 12 * 7) (Some v) log
  = (inl RequestValidationError, log).
Proof.
  intros Hv. cbn [Query].
  assert (E : ((60 * 10 <? v) && (v <=? 3600 * 12 * 7))%Z = false).
  { apply andb_false_iff. destruct Hv; [left; apply Z.ltb_ge | right; apply Z.leb_gt]; lia. }
  rewrite E. reflexivity.
Qed.

(** What [get_s3_file] does once [expiry] has passed, case by case. *)
Lemma get_s3_file_valid file_path expiry seconds read_meta :
  valid_expiry expiry seconds ->
  run (get_s3_file file_path expiry read_meta) =
  let probe := HeadObject BUCKET_NAME (encoded file_path) in
  match head_object s3 BUCKET_NAME (encoded file_path) with
  | inl NoCredentialsError =>
      (inl (HTTPException 500 (py "AWS credentials not available")), [probe])
  | inl _ =>
      (inl (HTTPException 404
              (py "File or folder not found: " ++ encoded file_path)),
       [probe])
  | inr _ =>
      if Query_bool true read_meta
         && Py.endswith (Py.lower (stripped file_path)) (py ".json")
      then
        (match get_object s3 BUCKET_NAME (stripped file_path) with
         | inl e =>
             inl (HTTPException 500
                    (py "Error reading meta.json: " ++ str_of_exn e))
         | inr body =>
             match json_loads body with
             | inl e =>
                 inl (HTTPException 500
                        (py "Error reading meta.json: " ++ str_of_exn e))
             | inr content =>
                 match render (jsonable_encoder content) with
                 | inl (class_name, message) =>
                     inl (OtherError class_name message)
                 | inr rendered =>
                     inr (JSONResponse (jsonable_encoder content) rendered)
                 end
             end
         end,
         [probe; GetObject BUCKET_NAME (stripped file_path)])
      else
        (inr (RedirectResponse
                (generate_presigned_url s3 BUCKET_NAME (encoded file_path)
                   seconds)),
         [probe;
          GeneratePresignedUrl BUCKET_NAME (encoded file_path) seconds])
  end.
Proof.
  intros Hv. unfold run, get_s3_file, bind at 1.
  rewrite (@Query_valid expiry seconds [] Hv). unfold encoded, stripped.
  unfold check_object_existence, read_meta_json, new_JSONResponse,
    try_except, bind, invoke, lift, ret, raise.
  cbn [app].
  destruct (head_object s3 BUCKET_NAME _) as [[]|h]; try reflexivity.
  destruct (Query_bool true read_meta && _); [|reflexivity].
  cbn [app].
  destruct (get_object s3 BUCKET_NAME _) as [e|body]; [reflexivity|].
  destruct (json_loads body) as [e|content]; [reflexivity|].
  destruct (render (jsonable_encoder content)) as [[class_name message]|b];
    reflexivity.
Qed.

(** What [head_s3_file] does, case by case. *)
Lemma head_s3_file_cases file_path :
  run (head_s3_file file_path) =
  (match head_object s3 BUCKET_NAME (encoded file_path) with
   | inr response =>
       inr (Response [] 200
              [(py "Last-Modified",
                Datetime.strftime_http (head_LastModified response));
               (py "Content-Length",
                Datetime.str_of_int (head_ContentLength response))])
   | inl (ClientError code message) =>
       if str_eqb code (py "404") then inr (Response [] 404 [])
       else inl (HTTPException 500 (py "AWS Error: " ++ message))
   | inl e =>
       inl (AttributeError
              (py "'" ++ class_name_of e
               ++ py "' object has no attribute 'response'"))
   end,
   [HeadObject BUCKET_NAME (encoded file_path)]).
Proof.
  unfold run, head_s3_file, try_except, bind, invoke, ret, raise.
  unfold encoded. cbn [app].
  destruct (head_object s3 BUCKET_NAME _) as [[]|h]; try reflexivity.
  destruct (str_eqb code (py "404")); reflexivity.
Qed.

(** What [list_s3_files] does, case by case. *)
Lemma list_s3_files_cases folder prettify :
  run (list_s3_files folder prettify) =
  (match paginate s3 BUCKET_NAME (listing_prefix folder) with
   | inr page_iterator =>
       inr (StreamingResponse
              (generate (Query_bool false prettify) page_iterator)
              (py "application/json"))
   | inl NoCredentialsError =>
       inl (HTTPException 500 (py "AWS credentials not available"))
   | inl e => inl e
   end,
   [Paginate BUCKET_NAME (listing_prefix folder)]).
Proof.
  unfold run, list_s3_files, try_except, bind, invoke, ret, raise.
  unfold listing_prefix. cbn [app].
  destruct (paginate s3 BUCKET_NAME _) as [[]|it]; reflexivity.
Qed.

(** ** The specification, statement by statement *)

(** C1 (as amended).  On the content-retrieval endpoint an expiry of 600
    is rejected and 601 is accepted; 3024001 is rejected and so is
    3024000.  Every expiry above 600 and at most 302400 ([3600 * 12 * 7])
    is accepted, every expiry at most 600 or above 604800 (one week) is
    rejected, and a rejected expiry is rejected before any call on the
    provider: the log of calls is empty. *)
Theorem get_s3_file_expiry_range file_path read_meta :
  rejects_expiry file_path 600 read_meta
  /\ accepts_expiry file_path 601 read_meta
  /\ rejects_expiry file_path 3024001 read_meta
  /\ rejects_expiry file_path 3024000 read_meta
  /\ (forall expiry, (600 < expiry <= 302400)%Z ->
      accepts_expiry file_path expiry read_meta)
  /\ (forall expiry, (expiry <= 600 \/ 604800 < expiry)%Z ->
      rejects_expiry file_path expiry read_meta).
Proof.
  assert (Hrej : forall expiry, (expiry <= 600 \/ 302400 < expiry)%Z ->
                 rejects_expiry file_path expiry read_meta).
  { intros expiry Hx. unfold rejects_expiry, run, get_s3_file, bind at 1.
    rewrite Query_invalid by exact Hx. reflexivity. }
  assert (Hacc : forall expiry, (600 < expiry <= 302400)%Z ->
                 accepts_expiry file_path expiry read_meta).
  { intros expiry Hx. unfold accepts_expiry.
    rewrite (@get_s3_file_valid file_path (Some expiry) expiry read_meta)
      by (split; [reflexivity | exact Hx]).
    cbv zeta.
    destruct (head_object s3 BUCKET_NAME (encoded file_path)) as [[]|h];
      try (eexists; eexists; split; [reflexivity | discriminate]).
    destruct (Query_bool true read_meta && _).
    - eexists; eexists; split; [reflexivity|].
      destruct (get_object s3 BUCKET_NAME _) as [e|body]; [discriminate|].
      destruct (json_loads body) as [e|content]; [discriminate|].
      destruct (render (jsonable_encoder content)) as [[c m]|b];
        discriminate.
    - eexists; eexists; split; [reflexivity | discriminate]. }
  split; [apply Hrej; lia|].
  split; [apply Hacc; lia|].
  split; [apply Hrej; lia|].
  split; [apply Hrej; lia|].
  split; [exact Hacc|].
  intros expiry Hx. apply Hrej. lia.
Qed.

(** C5.  When the provider delivers its pages, the listing is the stream
    of chunks ["["], the records of all pages in the provider's order with
    a [","] between two records and none before the first, and ["]"].
    With no matching object the output is exactly ["[]"]; with N objects
    it is a JSON text that denotes the array of the N records, in the same
    order. *)
Theorem list_s3_files_json_array folder prettify pages :
  paginate s3 BUCKET_NAME (listing_prefix folder) = inr (List.map inr pages) ->
  let records :=
    List.map (item_dict (Query_bool false prettify)) (all_contents pages) in
  exists chunks,
    fst (run (list_s3_files folder prettify))
    = inr (StreamingResponse (chunks, StopIteration) (py "application/json"))
    /\ chunks
       = py "[" :: intersperse (py ",") (List.map Json.dumps records)
         ++ [py "]"]
    /\ List.concat chunks
       = py "[" ++ Json.join (py ",") (List.map Json.dumps records) ++ py "]"
    /\ (all_contents pages = [] -> List.concat chunks = py "[]")
    /\ Json.loads (List.concat chunks)
       = Some (JArray (List.map Json.json_of_dict records))
    /\ List.length (List.map Json.json_of_dict records)
       = List.length (all_contents pages).
Proof.
  intros Hp records.
  assert (Hc : List.concat
                 (py "[" :: intersperse (py ",") (List.map Json.dumps records)
                  ++ [py "]"])
               = py "[" ++ Json.join (py ",") (List.map Json.dumps records)
                 ++ py "]").
  { cbn [List.concat]. rewrite concat_app, concat_intersperse.
    cbn [List.concat]. now rewrite app_nil_r. }
  eexists. split; [|split; [reflexivity|]].
  - rewrite list_s3_files_cases, Hp. cbn [fst]. unfold generate.
    rewrite generate_pages_ok. unfold records. rewrite map_map. reflexivity.
  - rewrite Hc. repeat split.
    + intros Hnil. unfold records. rewrite Hnil. reflexivity.
    + apply loads_array. unfold records. apply Forall_map, Forall_forall.
      intros item _. unfold item_dict.
      destruct (Query_bool false prettify); reflexivity.
    + unfold records. now rewrite !length_map.
Qed.

(** C6.  For a listed object, the record of prettify mode and the record
    of raw mode have the same [Key], the object's key, and the same three
    fields, so that they differ at most in [Size] and [LastModified].  In
    raw mode [LastModified] has the shape YYYY-MM-DDTHH:MM:SSZ and [Size]
    is the integer byte count; in prettify mode both are the strings
    [humanize] makes of them. *)
Theorem item_dict_prettify_and_raw item :
  provider_timestamp (LastModified item) ->
  dict_get (py "Key") (item_dict true item) = Some (PyStr (Key item))
  /\ dict_get (py "Key") (item_dict false item) = Some (PyStr (Key item))
  /\ List.map fst (item_dict true item) = List.map fst (item_dict false item)
  /\ (forall k, k <> py "Size" -> k <> py "LastModified" ->
      dict_get k (item_dict true item) = dict_get k (item_dict false item))
  /\ dict_get (py "LastModified") (item_dict false item)
     = Some (PyStr (Datetime.strftime_iso (LastModified item)))
  /\ iso8601_utc (Datetime.strftime_iso (LastModified item)) = true
  /\ dict_get (py "Size") (item_dict false item) = Some (PyInt (Size item))
  /\ dict_get (py "LastModified") (item_dict true item)
     = Some (PyStr (naturaldate (LastModified item)))
  /\ dict_get (py "Size") (item_dict true item)
     = Some (PyStr (naturalsize (Size item))).
Proof.
  intros Ht. repeat split; try reflexivity.
  - intros k Hs Hl. unfold item_dict. cbn [dict_get].
    rewrite (str_eqb_neq Hs), (str_eqb_neq Hl). reflexivity.
  - now apply strftime_iso_shape.
Qed.


(** C8.  On a GET whose [expiry] is valid, when the probe answers that
    the object is missing, the request fails with status 404 and a detail
    that names the path, in the slash-stripped and quoted form in which it
    was probed; the probe is the only call made: no object is read and no
    URL is signed. *)
Theorem get_s3_file_missing_object file_path expiry seconds read_meta message :
  valid_expiry expiry seconds ->
  head_object s3 BUCKET_NAME (encoded file_path)
  = inl (ClientError (py "404") message) ->
  run (get_s3_file file_path expiry read_meta) =
  (inl (HTTPException 404
          (py "File or folder not found: " ++ encoded file_path)),
   [HeadObject BUCKET_NAME (encoded file_path)]).
Proof.
  intros Hv Hh.
  rewrite (@get_s3_file_valid file_path expiry seconds read_meta Hv).
  cbv zeta. rewrite Hh. reflexivity.
Qed.

(** C9.  On a GET whose [expiry] is valid and whose probe finds the
    object, when [read_meta] is false or the path does not end in
    [.json], the response is a redirect to the URL presigned for the
    object with the requested number of seconds; the object is not read. *)
Theorem get_s3_file_redirect file_path expiry seconds read_meta probe :
  valid_expiry expiry seconds ->
  head_object s3 BUCKET_NAME (encoded file_path) = inr probe ->
  Query_bool true read_meta = false
  \/ Py.endswith (Py.lower (stripped file_path)) (py ".json") = false ->
  run (get_s3_file file_path expiry read_meta) =
  (inr (RedirectResponse
          (generate_presigned_url s3 BUCKET_NAME (encoded file_path) seconds)),
   [HeadObject BUCKET_NAME (encoded file_path);
    GeneratePresignedUrl BUCKET_NAME (encoded file_path) seconds]).
Proof.
  intros Hv Hh Hc.
  rewrite (@get_s3_file_valid file_path expiry seconds read_meta Hv).
  cbv zeta. rewrite Hh.
  assert (E : Query_bool true read_meta
              && Py.endswith (Py.lower (stripped file_path)) (py ".json")
              = false).
  { apply andb_false_iff. exact Hc. }
  rewrite E. reflexivity.
Qed.

(** C10.  On a GET that reads the JSON inline, the probe is made on the
    quoted slash-stripped path and the read on the slash-stripped path as
    it is; for a path that quoting changes, the key whose existence was
    verified is not the key whose content is read. *)
Theorem get_s3_file_probed_key_differs file_path expiry seconds read_meta
  probe :
  valid_expiry expiry seconds ->
  Query_bool true read_meta = true ->
  Py.endswith (Py.lower (stripped file_path)) (py ".json") = true ->
  head_object s3 BUCKET_NAME (encoded file_path) = inr probe ->
  Urllib.quote file_path <> file_path ->
  exists probed read,
    snd (run (get_s3_file file_path expiry read_meta))
    = [HeadObject BUCKET_NAME probed; GetObject BUCKET_NAME read]
    /\ probed = Urllib.quote (Py.strip 47%N file_path)
    /\ read = Py.strip 47%N file_path
    /\ probed <> read.
Proof.
  intros Hv Hm Hj Hh Hq.
  exists (Urllib.quote (Py.strip 47%N file_path)), (Py.strip 47%N file_path).
  rewrite (@get_s3_file_valid file_path expiry seconds read_meta Hv).
  cbv zeta. rewrite Hh, Hm, Hj. cbn [snd].
  repeat split. now apply quote_strip_changes.
Qed.

(** ** Further properties of the handlers *)

(** X1.  HEAD on an existing key answers 200 with an empty body and the
    headers [Last-Modified], the stored timestamp as an HTTP date, and
    [Content-Length], the stored size; the probe is its only call. *)
Theorem head_s3_file_existing file_path response :
  head_object s3 BUCKET_NAME (encoded file_path) = inr response ->
  run (head_s3_file file_path) =
  (inr (Response [] 200
          [(py "Last-Modified",
            Datetime.strftime_http (head_LastModified response));
           (py "Content-Length",
            Datetime.str_of_int (head_ContentLength response))]),
   [HeadObject BUCKET_NAME (encoded file_path)]).
Proof. intros Hh. rewrite head_s3_file_cases, Hh. reflexivity. Qed.

(** X2.  HEAD when the provider answers with an error response: code
    ["404"] gives the response 404 with an empty body and no headers, any
    other code an [HTTPException] 500 whose detail is ["AWS Error: "] and
    the provider's message. *)
Theorem head_s3_file_client_error file_path code message :
  head_object s3 BUCKET_NAME (encoded file_path)
  = inl (ClientError code message) ->
  run (head_s3_file file_path) =
  (if str_eqb code (py "404") then inr (Response [] 404 [])
   else inl (HTTPException 500 (py "AWS Error: " ++ message)),
   [HeadObject BUCKET_NAME (encoded file_path)]).
Proof. intros Hh. rewrite head_s3_file_cases, Hh. reflexivity. Qed.

(** X3.  GET with a valid [expiry] when the probe finds no credentials:
    the request fails with 500 and the detail ["AWS credentials not
    available"], after the probe alone. *)
Theorem get_s3_file_no_credentials file_path expiry seconds read_meta :
  valid_expiry expiry seconds ->
  head_object s3 BUCKET_NAME (encoded file_path) = inl NoCredentialsError ->
  run (get_s3_file file_path expiry read_meta) =
  (inl (HTTPException 500 (py "AWS credentials not available")),
   [HeadObject BUCKET_NAME (encoded file_path)]).
Proof.
  intros Hv Hh.
  rewrite (@get_s3_file_valid file_path expiry seconds read_meta Hv).
  cbv zeta. rewrite Hh. reflexivity.
Qed.

(** X4.  A listing whose client raises [NoCredentialsError] from
    [paginate] itself fails with 500 and the detail ["AWS credentials not
    available"]: no response, and so no output, is produced. *)
Theorem list_s3_files_paginate_no_credentials folder prettify :
  paginate s3 BUCKET_NAME (listing_prefix folder) = inl NoCredentialsError ->
  run (list_s3_files folder prettify) =
  (inl (HTTPException 500 (py "AWS credentials not available")),
   [Paginate BUCKET_NAME (listing_prefix folder)]).
Proof. intros Hp. rewrite list_s3_files_cases, Hp. reflexivity. Qed.

(** X5.  Every record the listing yields is by itself a JSON text, and it
    denotes the record. *)
Theorem item_dict_dumps_loads prettify item :
  Json.loads (Json.dumps (item_dict prettify item))
  = Some (Json.json_of_dict (item_dict prettify item)).
Proof.
  assert (H3 : List.length (item_dict prettify item) = 3%nat)
    by (unfold item_dict; destruct prettify; reflexivity).
  unfold Json.loads.
  rewrite <- (app_nil_r (Json.dumps (item_dict prettify item))) at 2.
  pose proof (Json_dumps_length _ H3) as Hl.
  rewrite parse_value_dumps by (rewrite H3; lia).
  reflexivity.
Qed.

(** ** Stripping, once more *)

Section StripFacts.

Variable c : codepoint.

Let all_c (l : str) : Prop := Forall (fun x => x = c) l.

Lemma lstrip_all l : all_c l -> Py.lstrip c l = [].
Proof.
  induction 1 as [|x l Hx _ IH]; [reflexivity|].
  cbn [Py.lstrip]. subst x. now rewrite N.eqb_refl.
Qed.

Lemma lstrip_prefix l s : all_c l -> Py.lstrip c (l ++ s) = Py.lstrip c s.
Proof.
  induction 1 as [|x l Hx _ IH]; [reflexivity|].
  cbn [app Py.lstrip]. subst x. now rewrite N.eqb_refl.
Qed.

Lemma lstrip_suffix s r :
  all_c r ->
  Py.lstrip c (s ++ r) =
  match Py.lstrip c s with
  | [] => []
  | x :: t => (x :: t) ++ r
  end.
Proof.
  intros Hr. induction s as [|x s IH].
  - cbn [app Py.lstrip]. now apply lstrip_all.
  - cbn [app Py.lstrip]. destruct (N.eqb x c); [exact IH | reflexivity].
Qed.

Lemma rstrip_suffix s r : all_c r -> Py.rstrip c (s ++ r) = Py.rstrip c s.
Proof.
  intros Hr. unfold Py.rstrip. rewrite rev_app_distr, lstrip_prefix.
  - reflexivity.
  - now apply Forall_rev.
Qed.

(** Slashes around a path do not count: a path with more of them strips
    to the same key. *)
Lemma strip_outer l s r :
  all_c l -> all_c r -> Py.strip c (l ++ s ++ r) = Py.strip c s.
Proof.
  intros Hl Hr. unfold Py.strip.
  rewrite lstrip_prefix by exact Hl. rewrite lstrip_suffix by exact Hr.
  destruct (Py.lstrip c s) as [|x t]; [reflexivity|].
  now apply rstrip_suffix.
Qed.

Lemma lstrip_head s : hd_error (Py.lstrip c s) <> Some c.
Proof.
  induction s as [|x s IH]; [discriminate|].
  cbn [Py.lstrip]. destruct (N.eqb x c) eqn:E; [exact IH|].
  cbn [hd_error]. intros H. injection H as H. subst x.
  now rewrite N.eqb_refl in E.
Qed.

Lemma rstrip_last s : hd_error (List.rev (Py.rstrip c s)) <> Some c.
Proof. unfold Py.rstrip. rewrite rev_involutive. apply lstrip_head. Qed.

Lemma rstrip_head s :
  hd_error s <> Some c -> hd_error (Py.rstrip c s) <> Some c.
Proof.
  intros Hs. destruct (lstrip_split c (List.rev s)) as (l & Hl & _).
  apply (f_equal (@List.rev N)) in Hl.
  rewrite rev_involutive, rev_app_distr in Hl. fold (Py.rstrip c s) in Hl.
  destruct (Py.rstrip c s) as [|x t]; [discriminate|].
  rewrite Hl in Hs. exact Hs.
Qed.

(** A stripped path neither starts nor ends with the stripped character. *)
Lemma strip_clean s :
  hd_error (Py.strip c s) <> Some c
  /\ hd_error (List.rev (Py.strip c s)) <> Some c.
Proof.
  unfold Py.strip. split.
  - apply rstrip_head, lstrip_head.
  - apply rstrip_last.
Qed.

End StripFacts.

(** X6.  Slashes before and after the path do not matter to any of the
    three endpoints: GET, HEAD and the listing treat a path with more
    leading or trailing slashes as the same path. *)
Theorem outer_slashes_do_not_matter l r path expiry read_meta prettify :
  Forall (fun x => x = 47%N) l ->
  Forall (fun x => x = 47%N) r ->
  get_s3_file (l ++ path ++ r) expiry read_meta
  = get_s3_file path expiry read_meta
  /\ head_s3_file (l ++ path ++ r) = head_s3_file path
  /\ list_s3_files (Some (l ++ path ++ r)) prettify
     = list_s3_files (Some path) prettify.
Proof.
  intros Hl Hr. unfold get_s3_file, head_s3_file, list_s3_files.
  rewrite !(@strip_outer 47%N l path r Hl Hr). repeat split.
Qed.

(** X7.  The prefix a listing asks the provider for is the folder without
    its outer slashes, followed by one slash; the folder part neither
    starts nor ends with a slash, and an absent folder lists ["HDX/"].
    The request for this prefix is the one call of the handler. *)
Theorem list_s3_files_prefix folder prettify :
  exists body,
    snd (run (list_s3_files folder prettify))
    = [Paginate BUCKET_NAME (body ++ py "/")]
    /\ hd_error body <> Some 47%N
    /\ hd_error (List.rev body) <> Some 47%N
    /\ (folder = None -> body = py "HDX")
    /\ (forall f, folder = Some f ->
        exists l r, f = l ++ body ++ r
                    /\ Forall (fun x => x = 47%N) l
                    /\ Forall (fun x => x = 47%N) r).
Proof.
  exists (Py.strip 47%N (match folder with
                         | Some f => f
                         | None => py "/HDX"
                         end)).
  rewrite list_s3_files_cases. cbn [snd]. unfold listing_prefix.
  split; [reflexivity|]. split; [apply strip_clean|].
  split; [apply strip_clean|]. split.
  - intros ->. reflexivity.
  - intros f ->. apply strip_split.
Qed.

(** ** The alphabet of quoted paths *)

Section QuoteAlphabet.

Import Urllib.
Local Open Scope N_scope.

Lemma lor_lt_pow2 a b n : a < 2 ^ n -> b < 2 ^ n -> N.lor a b < 2 ^ n.
Proof.
  intros Ha Hb. destruct (N.eq_dec n 0) as [-> | Hn].
  - rewrite N.pow_0_r in *.
    assert (a = 0) by lia. assert (b = 0) by lia. subst. reflexivity.
  - destruct (N.eq_dec (N.lor a b) 0) as [E | E].
    + rewrite E. apply N.neq_0_lt_0, N.pow_nonzero. discriminate.
    + apply N.log2_lt_pow2; [lia|]. rewrite N.log2_lor.
      assert (La : N.log2 a < n).
      { destruct (N.eq_dec a 0) as [-> | Na]; [cbn [N.log2]; lia|].
        apply N.log2_lt_pow2; [lia | exact Ha]. }
      assert (Lb : N.log2 b < n).
      { destruct (N.eq_dec b 0) as [-> | Nb]; [cbn [N.log2]; lia|].
        apply N.log2_lt_pow2; [lia | exact Hb]. }
      lia.
Qed.

Lemma shiftr_lt a k m : a < m * 2 ^ k -> N.shiftr a k < m.
Proof.
  intros Ha. rewrite N.shiftr_div_pow2.
  apply N.Div0.div_lt_upper_bound. rewrite N.mul_comm. exact Ha.
Qed.

Lemma land_63_lt x : N.land x 63 < 256.
Proof.
  change 63 with (N.ones 6). rewrite N.land_ones.
  assert (x mod 2 ^ 6 < 2 ^ 6) by (apply N.mod_lt; discriminate).
  change (2 ^ 6) with 64 in H |- *. lia.
Qed.

(** The bytes of a code point are bytes. *)
Lemma utf8_encode_cp_bytes c :
  is_code_point c -> Forall (fun b => b < 256) (utf8_encode_cp c).
Proof.
  unfold is_code_point, utf8_encode_cp. intros Hc.
  assert (Hcont : forall x, N.lor 128 (N.land x 63) < 256).
  { intros x. apply (@lor_lt_pow2 128 (N.land x 63) 8);
      [reflexivity | apply land_63_lt]. }
  destruct (c <? 128) eqn:E1.
  - apply N.ltb_lt in E1. repeat constructor. lia.
  - destruct (c <? 2048) eqn:E2.
    + apply N.ltb_lt in E2. repeat constructor; try apply Hcont.
      apply (@lor_lt_pow2 192 (N.shiftr c 6) 8); [reflexivity|].
      assert (N.shiftr c 6 < 32) by (apply shiftr_lt; exact E2).
      change (2 ^ 8) with 256. lia.
    + destruct (c <? 65536) eqn:E3.
      * apply N.ltb_lt in E3. repeat constructor; try apply Hcont.
        apply (@lor_lt_pow2 224 (N.shiftr c 12) 8); [reflexivity|].
        assert (N.shiftr c 12 < 16) by (apply shiftr_lt; exact E3).
        change (2 ^ 8) with 256. lia.
      * repeat constructor; try apply Hcont.
        apply (@lor_lt_pow2 240 (N.shiftr c 18) 8); [reflexivity|].
        assert (N.shiftr c 18 < 5)
          by (apply shiftr_lt; change (5 * 2 ^ 18) with 1310720; lia).
        change (2 ^ 8) with 256. lia.
Qed.

Lemma safe_byte_lt b : safe_byte b = true -> b < 128.
Proof.
  unfold safe_byte, always_safe. intros H.
  repeat rewrite ?orb_true_iff, ?andb_true_iff, ?N.leb_le, ?N.eqb_eq in H.
  lia.
Qed.

Lemma hex_upper_digit d : d < 16 -> is_upper_hex (hex_upper d) = true.
Proof.
  intros Hd. unfold hex_upper, is_upper_hex.
  destruct (d <? 10) eqn:E.
  - apply N.ltb_lt in E. apply orb_true_iff. left.
    apply andb_true_intro. split; apply N.leb_le; lia.
  - apply N.ltb_ge in E. apply orb_true_iff. right.
    apply andb_true_intro. split; apply N.leb_le; lia.
Qed.

Lemma percent_encoded_quoter b t :
  b < 256 -> percent_encoded (quoter b ++ t) = percent_encoded t.
Proof.
  intros Hb. unfold quoter. destruct (safe_byte b) eqn:E.
  - pose proof (safe_byte_lt b E) as Hlt.
    cbn [app percent_encoded].
    assert (E37 : (b =? 37) = false).
    { apply N.eqb_neq. intros ->. discriminate E. }
    rewrite E37. unfold unreserved. rewrite E.
    replace (b <? 128) with true by (symmetry; apply N.ltb_lt; exact Hlt).
    reflexivity.
  - cbn [app percent_encoded]. change (37 =? 37) with true. cbv iota.
    rewrite !hex_upper_digit.
    + reflexivity.
    + apply N.mod_lt. discriminate.
    + apply N.Div0.div_lt_upper_bound. exact Hb.
Qed.

Lemma percent_encoded_quoters bs t :
  Forall (fun b => b < 256) bs ->
  percent_encoded (flat_map quoter bs ++ t) = percent_encoded t.
Proof.
  induction 1 as [|b bs Hb _ IH]; [reflexivity|].
  cbn [flat_map]. rewrite <- app_assoc, percent_encoded_quoter by exact Hb.
  exact IH.
Qed.

Lemma percent_encoded_quote s :
  Forall is_code_point s -> percent_encoded (quote s) = true.
Proof.
  induction 1 as [|c s Hc _ IH]; [reflexivity|].
  unfold quote in IH |- *. cbn [flat_map]. unfold quote_cp at 1.
  rewrite percent_encoded_quoters by (apply utf8_encode_cp_bytes; exact Hc).
  exact IH.
Qed.

(** A text that is percent-encoded holds only unreserved code points and
    the percent sign. *)
Lemma percent_encoded_alphabet s :
  percent_encoded s = true ->
  Forall (fun c => unreserved c = true \/ c = 37) s.
Proof.
  assert (Hx : forall h, is_upper_hex h = true -> unreserved h = true).
  { intros h Hh. unfold is_upper_hex in Hh. unfold unreserved, safe_byte,
      always_safe.
    repeat rewrite ?orb_true_iff, ?andb_true_iff, ?N.leb_le in Hh.
    assert (Hlt : (h <? 128) = true) by (apply N.ltb_lt; lia).
    rewrite Hlt. cbn [andb].
    destruct Hh as [[H1 H2] | [H1 H2]].
    - replace ((48 <=? h) && (h <=? 57)) with true.
      + now rewrite !orb_true_r.
      + symmetry. apply andb_true_intro. split; apply N.leb_le; assumption.
    - replace ((65 <=? h) && (h <=? 90)) with true.
      + reflexivity.
      + symmetry. apply andb_true_intro. split; apply N.leb_le; lia. }
  assert (Hgen : forall n s, (List.length s <= n)%nat ->
                 percent_encoded s = true ->
                 Forall (fun c => unreserved c = true \/ c = 37) s).
  { clear s. induction n as [|n IH]; intros s Hn Hs.
    - destruct s; [constructor | cbn in Hn; lia].
    - destruct s as [|c r]; [constructor|]. cbn [percent_encoded] in Hs.
      destruct (c =? 37) eqn:E.
      + apply N.eqb_eq in E. subst c.
        destruct r as [|h1 [|h2 r']]; try discriminate Hs.
        apply andb_prop in Hs. destruct Hs as [Hs Hr].
        apply andb_prop in Hs. destruct Hs as [H1 H2].
        constructor; [now right|]. constructor; [left; now apply Hx|].
        constructor; [left; now apply Hx|].
        apply IH; [cbn in Hn |- *; lia | exact Hr].
      + apply andb_prop in Hs. destruct Hs as [Hc Hr].
        constructor; [now left|]. apply IH; [cbn in Hn; lia | exact Hr]. }
  apply (Hgen (List.length s)). lia.
Qed.

Lemma reserved_has_percent c :
  unreserved c = false -> In 37 (quote_cp c).
Proof.
  intros Hc. unfold quote_cp. apply in_flat_map.
  assert (Hq : forall b, safe_byte b = false -> In 37 (quoter b)).
  { intros b Hb. unfold quoter. rewrite Hb. now left. }
  assert (Hcont : forall x, safe_byte (N.lor 128 (N.land x 63)) = false).
  { intros x. destruct (safe_byte (N.lor 128 (N.land x 63))) eqn:E;
      [|reflexivity].
    apply safe_byte_lt in E. exfalso.
    assert (Hb : N.testbit (N.lor 128 (N.land x 63)) 7 = true).
    { rewrite N.lor_spec. reflexivity. }
    destruct (N.eq_dec (N.lor 128 (N.land x 63)) 0) as [Z | NZ].
    - rewrite Z in Hb. discriminate Hb.
    - rewrite N.bits_above_log2 in Hb; [discriminate Hb|].
      apply N.log2_lt_pow2; [lia | exact E]. }
  unfold unreserved in Hc. unfold utf8_encode_cp.
  destruct (c <? 128) eqn:E1.
  - cbn [andb] in Hc. exists c. split; [now left | now apply Hq].
  - destruct (c <? 2048); [|destruct (c <? 65536)];
      eexists; (split; [|apply Hq, Hcont]); cbn [In];
      repeat (first [left; reflexivity | right]).
Qed.

End QuoteAlphabet.

(** X8.  The key the GET and HEAD handlers probe is percent-encoded: it
    consists of unreserved characters (letters, digits, [_.-~/]) and of
    escapes [%XX] with upper-case hexadecimal digits, whatever the path of
    the request. *)
Theorem encoded_is_percent_encoded file_path :
  Forall is_code_point file_path ->
  percent_encoded (encoded file_path) = true
  /\ Forall (fun c => unreserved c = true \/ c = 37%N) (encoded file_path).
Proof.
  intros Hp.
  assert (Hs : Forall is_code_point (Py.strip 47%N file_path)).
  { destruct (strip_split 47 file_path) as (l & r & E & _ & _).
    rewrite E in Hp. apply Forall_app in Hp. destruct Hp as [_ Hp].
    apply Forall_app in Hp. apply Hp. }
  unfold encoded. pose proof (percent_encoded_quote Hs) as Hq.
  split; [exact Hq | now apply percent_encoded_alphabet].
Qed.

(** X9.  Quoting is not idempotent: a path that quoting changes is
    changed again when the result is quoted, because the percent sign of
    each escape is itself quoted.  A path that arrives already quoted is
    therefore probed and signed under a doubly quoted key. *)
Theorem quote_twice_differs s :
  Urllib.quote s <> s -> Urllib.quote (Urllib.quote s) <> Urllib.quote s.
Proof.
  intros Hs Hq. apply quote_identity in Hq.
  assert (Hex : exists c, In c s /\ unreserved c = false).
  { destruct (forallb unreserved s) eqn:E.
    - exfalso. apply Hs. now apply quote_identity.
    - clear - E. induction s as [|c s IH]; [discriminate E|].
      cbn [forallb] in E. destruct (unreserved c) eqn:Ec.
      + destruct (IH E) as (c' & Hin & Hc'). exists c'. split; [now right | exact Hc'].
      + exists c. split; [now left | exact Ec]. }
  destruct Hex as (c & Hin & Hc).
  assert (H37 : In 37%N (Urllib.quote s)).
  { unfold Urllib.quote. apply in_flat_map. exists c.
    split; [exact Hin | now apply reserved_has_percent]. }
  rewrite forallb_forall in Hq. specialize (Hq 37%N H37). discriminate Hq.
Qed.

(** ** The alphabet of the listing *)

Section DumpsAlphabet.

Import Json.
Local Open Scope N_scope.

Lemma hex_lower_printable d : d < 16 -> printable (hex_lower d) = true.
Proof.
  intros Hd. unfold hex_lower, printable.
  destruct (d <? 10); apply andb_true_intro; split; apply N.leb_le; lia.
Qed.

Lemma u_escape_printable u : forallb printable (u_escape u) = true.
Proof.
  unfold u_escape. cbn [forallb]. rewrite !nibble, nibble0.
  rewrite !hex_lower_printable by apply mod16_lt. reflexivity.
Qed.

Lemma escape_cp_printable c : forallb printable (escape_cp c) = true.
Proof.
  unfold escape_cp.
  repeat match goal with
         | |- context [if ?b then _ else _] =>
             lazymatch b with
             | (_ =? _) => destruct b; [reflexivity|]
             end
         end.
  destruct ((32 <=? c) && (c <=? 126)) eqn:E.
  - cbn [forallb]. unfold printable. rewrite E. reflexivity.
  - destruct (c <? 65536).
    + apply u_escape_printable.
    + rewrite forallb_app, !u_escape_printable. reflexivity.
Qed.

Lemma encode_string_printable s : forallb printable (encode_string s) = true.
Proof.
  unfold encode_string. cbn [forallb]. rewrite forallb_app.
  change (printable 34) with true. cbn [forallb andb].
  rewrite andb_true_r.
  induction s as [|c s IH]; [reflexivity|].
  cbn [flat_map]. now rewrite forallb_app, escape_cp_printable, IH.
Qed.

Lemma uint_str_printable u : forallb printable (Datetime.uint_str u) = true.
Proof. induction u; cbn [Datetime.uint_str forallb]; try rewrite IHu; reflexivity. Qed.

Lemma str_of_int_printable z :
  forallb printable (Datetime.str_of_int z) = true.
Proof.
  destruct z; cbn [Datetime.str_of_int forallb];
    unfold Datetime.str_of_N; now rewrite uint_str_printable.
Qed.

Lemma dumps_member_printable kv : forallb printable (dumps_member kv) = true.
Proof.
  unfold dumps_member. rewrite !forallb_app, encode_string_printable.
  destruct (snd kv); cbn [dumps_val];
    [rewrite encode_string_printable | rewrite str_of_int_printable];
    reflexivity.
Qed.

Lemma dumps_printable d : forallb printable (dumps d) = true.
Proof.
  unfold dumps. rewrite !forallb_app.
  assert (H : forallb printable (join (py ", ") (List.map dumps_member d))
              = true).
  { induction d as [|kv [|kv' d] IH]; [reflexivity| |].
    - cbn [List.map join]. apply dumps_member_printable.
    - change (join (py ", ") (List.map dumps_member (kv :: kv' :: d)))
        with (dumps_member kv ++ py ", "
              ++ join (py ", ") (List.map dumps_member (kv' :: d))).
      rewrite !forallb_app, dumps_member_printable, IH. reflexivity. }
  rewrite H. reflexivity.
Qed.

End DumpsAlphabet.

Lemma generate_contents_printable prettify contents first_item :
  Forall printable_chunk
    (fst (generate_contents prettify contents first_item)).
Proof.
  revert first_item. induction contents as [|item rest IH]; intros first_item.
  - constructor.
  - cbn [generate_contents]. specialize (IH false).
    destruct (generate_contents prettify rest false) as [out f].
    cbn [fst] in IH |- *. apply Forall_app. split; [|exact IH].
    destruct first_item; cbn [negb];
      repeat constructor; try apply dumps_printable.
Qed.

Lemma generate_pages_printable prettify page_iterator : forall first_item,
  Forall printable_chunk
    (fst (generate_pages prettify page_iterator first_item)).
Proof.
  induction page_iterator as [|[e | response] rest IH]; intros first_item.
  - repeat constructor.
  - constructor.
  - cbn [generate_pages].
    pose proof (generate_contents_printable prettify
                  match Contents response with
                  | Some c => c
                  | None => []
                  end first_item) as Hc.
    destruct (generate_contents _ _ _) as [out f]. specialize (IH f).
    destruct (generate_pages prettify rest f) as [out' fin].
    cbn [fst] in *. apply Forall_app. now split.
Qed.

(** X10.  Whatever the keys, the dates and the sizes, and however the
    stream ends, every chunk of a listing consists of printable ASCII
    characters only: code points outside ASCII, quotes, backslashes and
    control characters of a key are written as escapes. *)
Theorem list_s3_files_output_is_ascii folder prettify chunks fin media_type :
  fst (run (list_s3_files folder prettify))
  = inr (StreamingResponse (chunks, fin) media_type) ->
  Forall (fun chunk => forallb printable chunk = true) chunks.
Proof.
  rewrite list_s3_files_cases. cbn [fst].
  destruct (paginate s3 BUCKET_NAME (listing_prefix folder)) as [e | it].
  - destruct e; discriminate.
  - intros H. injection H as H _. unfold generate in H.
    pose proof (generate_pages_printable (Query_bool false prettify) it true)
      as Hp.
    destruct (generate_pages _ it true) as [out fin'].
    injection H as H _. subst chunks. cbn [fst] in Hp.
    constructor; [reflexivity | exact Hp].
Qed.

(** ** The suffix test *)

Lemma startswith_spec s : forall p,
  Py.startswith s p = true <-> exists r, s = p ++ r.
Proof.
  induction s as [|x s IH]; intros [|y p]; cbn [Py.startswith].
  - split; [exists []; reflexivity | reflexivity].
  - split; [discriminate | intros [r Hr]; discriminate Hr].
  - split; [exists (x :: s); reflexivity | reflexivity].
  - rewrite andb_true_iff, N.eqb_eq, IH. split.
    + intros [-> [r ->]]. exists r. reflexivity.
    + intros [r Hr]. injection Hr as -> ->. split; [reflexivity | now exists r].
Qed.

Lemma endswith_spec s suffix :
  Py.endswith s suffix = true <-> exists p, s = p ++ suffix.
Proof.
  unfold Py.endswith. rewrite startswith_spec. split.
  - intros [r Hr]. exists (List.rev r).
    apply (f_equal (@List.rev N)) in Hr.
    now rewrite rev_involutive, rev_app_distr, rev_involutive in Hr.
  - intros [p ->]. exists (List.rev p). now rewrite rev_app_distr.
Qed.

(** X11.  The test for inline delivery accepts exactly the paths that end
    in five characters which are [.json] up to the case of the letters. *)
Theorem json_suffix_any_case s :
  Py.endswith (Py.lower s) (py ".json") = true
  <-> exists p d j s' o n,
        s = p ++ [d; j; s'; o; n]
        /\ d = 46%N /\ (j = 106 \/ j = 74)%N /\ (s' = 115 \/ s' = 83)%N
        /\ (o = 111 \/ o = 79)%N /\ (n = 110 \/ n = 78)%N.
Proof.
  assert (Hl : forall c t : N,
             (97 <= t <= 122)%N ->
             (Py.lower_cp c = t <-> c = t \/ c = t - 32)%N).
  { intros c t Ht. unfold Py.lower_cp.
    destruct ((65 <=? c) && (c <=? 90))%N eqn:E.
    - apply andb_prop in E. destruct E as [E1 E2].
      apply N.leb_le in E1. apply N.leb_le in E2. lia.
    - apply andb_false_iff in E.
      destruct E as [E | E];
        [apply N.leb_gt in E | apply N.leb_gt in E]; lia. }
  assert (Hd : forall c : N, Py.lower_cp c = 46%N <-> c = 46%N).
  { intros c. unfold Py.lower_cp.
    destruct ((65 <=? c) && (c <=? 90))%N eqn:E; [|reflexivity].
    apply andb_prop in E. destruct E as [E1 E2].
    apply N.leb_le in E1. apply N.leb_le in E2. lia. }
  rewrite endswith_spec. unfold Py.lower. split.
  - intros [q Hq]. apply map_eq_app in Hq.
    destruct Hq as (p & suf & -> & _ & Hsuf).
    destruct suf as [|d [|j [|s' [|o [|n [|]]]]]]; try discriminate Hsuf.
    cbn [List.map py list_ascii_of_string] in Hsuf.
    injection Hsuf as H1 H2 H3 H4 H5.
    exists p, d, j, s', o, n. split; [reflexivity|].
    change (N_of_ascii "."%char) with 46%N in H1.
    change (N_of_ascii "j"%char) with 106%N in H2.
    change (N_of_ascii "s"%char) with 115%N in H3.
    change (N_of_ascii "o"%char) with 111%N in H4.
    change (N_of_ascii "n"%char) with 110%N in H5.
    apply (proj1 (Hd d)) in H1.
    apply Hl in H2; [|lia]. apply Hl in H3; [|lia].
    apply Hl in H4; [|lia]. apply Hl in H5; [|lia].
    repeat split; lia.
  - intros (p & d & j & s' & o & n & -> & H1 & H2 & H3 & H4 & H5).
    exists (List.map Py.lower_cp p). rewrite map_app. f_equal.
    cbn [List.map py list_ascii_of_string].
    apply (proj2 (Hd d)) in H1.
    apply (Hl j 106%N) in H2; [|lia]. apply (Hl s' 115%N) in H3; [|lia].
    apply (Hl o 111%N) in H4; [|lia]. apply (Hl n 110%N) in H5; [|lia].
    rewrite H1, H2, H3, H4, H5. reflexivity.
Qed.

(** ** What the handlers never do *)

Lemma get_s3_file_invalid file_path v read_meta :
  (v <= 600 \/ 302400 < v)%Z ->
  run (get_s3_file file_path (Some v) read_meta)
  = (inl RequestValidationError, []).
Proof.
  intros Hv. unfold run, get_s3_file, bind at 1.
  rewrite Query_invalid by exact Hv. reflexivity.
Qed.

(** X12.  Whatever the request and the provider, GET ends in one of six
    ways: the expiry is turned down with no call; the probe fails, with
    404 or 500; the object is read and given inline; the read or the
    parse fails with 500; the content is parsed but cannot be rendered,
    and the exception of the rendering leaves the handler; the caller is
    redirected.  Nothing is called before the probe, the object is never
    both read and signed, and no other exception leaves the handler. *)
Theorem get_s3_file_outcomes file_path expiry read_meta :
  let probe := HeadObject BUCKET_NAME (encoded file_path) in
  let outcome := fst (run (get_s3_file file_path expiry read_meta)) in
  let log := snd (run (get_s3_file file_path expiry read_meta)) in
  (outcome = inl RequestValidationError /\ log = [])
  \/ ((exists detail, outcome = inl (HTTPException 404 detail)
       \/ outcome = inl (HTTPException 500 detail))
      /\ log = [probe])
  \/ ((exists content body,
         render content = inr body
         /\ outcome = inr (JSONResponse content body))
      /\ log = [probe; GetObject BUCKET_NAME (stripped file_path)])
  \/ ((exists detail, outcome = inl (HTTPException 500 detail))
      /\ log = [probe; GetObject BUCKET_NAME (stripped file_path)])
  \/ ((exists content class_name message,
         render content = inl (class_name, message)
         /\ outcome = inl (OtherError class_name message))
      /\ log = [probe; GetObject BUCKET_NAME (stripped file_path)])
  \/ (exists url seconds,
        outcome = inr (RedirectResponse url)
        /\ log = [probe;
                  GeneratePresignedUrl BUCKET_NAME (encoded file_path)
                    seconds]).
Proof.
  cbv zeta.
  assert (Hcases : (exists seconds, valid_expiry expiry seconds)
                   \/ (exists v, expiry = Some v
                                 /\ (v <= 600 \/ 302400 < v)%Z)).
  { destruct expiry as [v|]; [|left; exists 3600%Z; reflexivity].
    destruct (Z_lt_dec 600 v) as [H1 | H1];
      [destruct (Z_le_dec v 302400) as [H2 | H2]|].
    - left. exists v. split; [reflexivity | split; assumption].
    - right. exists v. split; [reflexivity | right].
      apply Z.nle_gt. exact H2.
    - right. exists v. split; [reflexivity | left].
      apply Z.nlt_ge. exact H1. }
  destruct Hcases as [[seconds Hv] | (v & -> & Hv)].
  - rewrite (@get_s3_file_valid file_path expiry seconds read_meta Hv).
    cbv zeta.
    destruct (head_object s3 BUCKET_NAME (encoded file_path)) as [e | h].
    + right. left. cbn [snd].
      destruct e; cbn [fst];
        (split; [eexists; first [left; reflexivity | right; reflexivity]
                | reflexivity]).
    + destruct (Query_bool true read_meta && _).
      * cbn [fst snd].
        destruct (get_object s3 BUCKET_NAME (stripped file_path))
          as [e | body].
        -- right. right. right. left.
           split; [eexists; reflexivity | reflexivity].
        -- destruct (json_loads body) as [e | content].
           ++ right. right. right. left.
              split; [eexists; reflexivity | reflexivity].
           ++ destruct (render (jsonable_encoder content))
                as [[class_name message] | body'] eqn:Hr.
              ** right. right. right. right. left.
                 split; [|reflexivity].
                 exists (jsonable_encoder content), class_name, message.
                 split; [exact Hr | reflexivity].
              ** right. right. left. split; [|reflexivity].
                 exists (jsonable_encoder content), body'.
                 split; [exact Hr | reflexivity].
      * right. right. right. right. right. cbn [fst snd].
        eexists. eexists. split; reflexivity.
  - left. rewrite (@get_s3_file_invalid file_path v read_meta Hv).
    split; reflexivity.
Qed.

(** X13.  Whatever the request and the provider, HEAD makes one call, the
    probe of the quoted key, and a response of HEAD has no body: it is
    200 with the two headers or 404 with none. *)
Theorem head_s3_file_outcomes file_path :
  snd (run (head_s3_file file_path))
  = [HeadObject BUCKET_NAME (encoded file_path)]
  /\ forall response,
       fst (run (head_s3_file file_path)) = inr response ->
       response = Response [] 404 []
       \/ exists last_modified content_length,
            response = Response [] 200
                         [(py "Last-Modified", last_modified);
                          (py "Content-Length", content_length)].
Proof.
  rewrite head_s3_file_cases. cbn [fst snd]. split; [reflexivity|].
  intros response.
  destruct (head_object s3 BUCKET_NAME (encoded file_path)) as [e | h].
  - destruct e; try discriminate.
    destruct (str_eqb code (py "404")); [|discriminate].
    intros H. injection H as <-. now left.
  - intros H. injection H as <-. right. eexists. eexists. reflexivity.
Qed.

(** X14.  HEAD and GET agree on what exists.  When HEAD answers 200 for
    a path, a GET of the same path with a valid expiry passes its probe:
    it does not fail with 404, and without inline delivery it redirects
    to the URL signed for the key HEAD probed.  When HEAD answers 404, the
    GET fails with 404. *)
Theorem head_then_get file_path expiry seconds read_meta :
  valid_expiry expiry seconds ->
  (forall headers,
     fst (run (head_s3_file file_path)) = inr (Response [] 200 headers) ->
     (forall detail,
        fst (run (get_s3_file file_path expiry read_meta))
        <> inl (HTTPException 404 detail))
     /\ (Query_bool true read_meta
         && Py.endswith (Py.lower (stripped file_path)) (py ".json") = false ->
         run (get_s3_file file_path expiry read_meta)
         = (inr (RedirectResponse
                   (generate_presigned_url s3 BUCKET_NAME (encoded file_path)
                      seconds)),
            [HeadObject BUCKET_NAME (encoded file_path);
             GeneratePresignedUrl BUCKET_NAME (encoded file_path) seconds])))
  /\ (fst (run (head_s3_file file_path)) = inr (Response [] 404 []) ->
      run (get_s3_file file_path expiry read_meta)
      = (inl (HTTPException 404
                (py "File or folder not found: " ++ encoded file_path)),
         [HeadObject BUCKET_NAME (encoded file_path)])).
Proof.
  intros Hv.
  rewrite (@get_s3_file_valid file_path expiry seconds read_meta Hv).
  rewrite head_s3_file_cases. cbv zeta. cbn [fst].
  destruct (head_object s3 BUCKET_NAME (encoded file_path)) as [e | h].
  - split.
    + intros headers H. exfalso. destruct e; try discriminate H.
      destruct (str_eqb code (py "404")); discriminate H.
    + intros H. destruct e; try discriminate H. reflexivity.
  - split; [|discriminate]. intros headers _. split.
    + intros detail.
      destruct (Query_bool true read_meta && _); cbn [fst];
        [|discriminate].
      destruct (get_object s3 BUCKET_NAME (stripped file_path)) as [e|body];
        [discriminate|].
      destruct (json_loads body) as [e|content]; [discriminate|].
      destruct (render (jsonable_encoder content)) as [[c m]|b];
        discriminate.
    + intros ->. reflexivity.
Qed.

(** ** Timestamps, once more *)

Section TimestampRoundTrip.

Local Open Scope Z_scope.

Lemma str_of_int_inj z1 z2 :
  Datetime.str_of_int z1 = Datetime.str_of_int z2 -> z1 = z2.
Proof.
  intros H.
  pose proof (@scan_int_str_of_int z1 [] I) as H1.
  pose proof (@scan_int_str_of_int z2 [] I) as H2.
  rewrite H, H2 in H1. now injection H1.
Qed.

Lemma pad2_inj a b :
  0 <= a -> 0 <= b -> Datetime.pad2 a = Datetime.pad2 b -> a = b.
Proof.
  intros Ha Hb H. unfold Datetime.pad2 in H.
  assert (H1 : (48 + Z.to_N (a / 10))%N = (48 + Z.to_N (b / 10))%N)
    by exact (f_equal (fun l => hd 0%N l) H).
  assert (H2 : (48 + Z.to_N (a mod 10))%N = (48 + Z.to_N (b mod 10))%N)
    by exact (f_equal (fun l => hd 0%N (tl l)) H).
  clear - Ha Hb H1 H2.
  assert (0 <= a / 10 /\ 0 <= b / 10 /\ 0 <= a mod 10 /\ 0 <= b mod 10)
    by (Z.to_euclidean_division_equations; lia).
  assert (a / 10 = b / 10 /\ a mod 10 = b mod 10) by lia.
  Z.to_euclidean_division_equations. lia.
Qed.

Lemma four_digits_inv s :
  four_digits s = true -> exists a b c d, s = [a; b; c; d].
Proof.
  destruct s as [|a [|b [|c [|d [|]]]]]; try discriminate.
  intros _. now exists a, b, c, d.
Qed.

Lemma weekday_name d :
  exists a b c,
    Datetime.day_abbr (Datetime.weekday d) = [a; b; c]
    /\ existsb (str_eqb [a; b; c]) day_names = true.
Proof.
  unfold Datetime.weekday.
  set (o := Datetime.ymd2ord (year d) (month d) (day d) + 6).
  assert (H : 0 <= o mod 7 < 7) by (apply Z.mod_pos_bound; reflexivity).
  clearbody o.
  assert (E : o mod 7 = 0 \/ o mod 7 = 1 \/ o mod 7 = 2 \/ o mod 7 = 3
              \/ o mod 7 = 4 \/ o mod 7 = 5 \/ o mod 7 = 6) by lia.
  destruct E as [E | [E | [E | [E | [E | [E | E]]]]]]; rewrite E;
    eexists; eexists; eexists; (split; [reflexivity | reflexivity]).
Qed.

Lemma month_name m :
  1 <= m <= 12 ->
  exists a b c,
    Datetime.month_abbr m = [a; b; c]
    /\ existsb (str_eqb [a; b; c]) month_names = true.
Proof.
  intros Hm.
  assert (E : m = 1 \/ m = 2 \/ m = 3 \/ m = 4 \/ m = 5 \/ m = 6 \/ m = 7
              \/ m = 8 \/ m = 9 \/ m = 10 \/ m = 11 \/ m = 12) by lia.
  repeat (destruct E as [E | E]); subst m;
    eexists; eexists; eexists; (split; [reflexivity | reflexivity]).
Qed.

Lemma strftime_http_shape d :
  provider_timestamp d -> http_date (Datetime.strftime_http d) = true.
Proof.
  intros (Hy & Hm & Hd & Hh & Hn & Hs). unfold Datetime.strftime_http.
  destruct (weekday_name d) as (w1 & w2 & w3 & -> & W).
  destruct (month_name Hm) as (m1 & m2 & m3 & -> & M).
  pose proof (year_four_digits Hy) as Y.
  destruct (Datetime.str_of_int (year d)) as [|y1 [|y2 [|y3 [|y4 [|]]]]];
    try discriminate Y.
  destruct (@pad2_digits (day d)) as (d1 & d2 & -> & D1 & D2); [lia|].
  destruct (@pad2_digits (hour d)) as (h1 & h2 & -> & H1 & H2); [lia|].
  destruct (@pad2_digits (minute d)) as (n1 & n2 & -> & N1 & N2); [lia|].
  destruct (@pad2_digits (second d)) as (s1 & s2 & -> & S1 & S2); [lia|].
  cbn [four_digits forallb] in Y.
  cbn [app py List.map list_ascii_of_string http_date].
  rewrite W, M. cbn [forallb andb].
  repeat (apply andb_prop in Y; destruct Y as [? Y]).
  repeat match goal with H : is_digit _ = true |- _ => rewrite H; clear H end.
  reflexivity.
Qed.

End TimestampRoundTrip.

(** X15.  The raw [LastModified] text loses nothing: two timestamps of
    the provider are written alike only when they are the same, to the
    second. *)
Theorem strftime_iso_lossless d1 d2 :
  provider_timestamp d1 ->
  provider_timestamp d2 ->
  Datetime.strftime_iso d1 = Datetime.strftime_iso d2 <-> d1 = d2.
Proof.
  intros (Hy1 & Hm1 & Hd1 & Hh1 & Hn1 & Hs1) (Hy2 & Hm2 & Hd2 & Hh2 & Hn2 & Hs2).
  split; [|intros ->; reflexivity].
  unfold Datetime.strftime_iso. intros H.
  destruct (four_digits_inv _ (year_four_digits Hy1)) as (a1 & b1 & c1 & e1 & Y1).
  destruct (four_digits_inv _ (year_four_digits Hy2)) as (a2 & b2 & c2 & e2 & Y2).
  rewrite Y1, Y2 in H.
  assert (P : forall z, exists p q, Datetime.pad2 z = [p; q])
    by (intros z; eexists; eexists; reflexivity).
  destruct (P (month d1)) as (? & ? & M1). destruct (P (month d2)) as (? & ? & M2).
  destruct (P (day d1)) as (? & ? & D1). destruct (P (day d2)) as (? & ? & D2).
  destruct (P (hour d1)) as (? & ? & O1). destruct (P (hour d2)) as (? & ? & O2).
  destruct (P (minute d1)) as (? & ? & I1). destruct (P (minute d2)) as (? & ? & I2).
  destruct (P (second d1)) as (? & ? & S1). destruct (P (second d2)) as (? & ? & S2).
  rewrite M1, M2, D1, D2, O1, O2, I1, I2, S1, S2 in H.
  cbn [app py List.map list_ascii_of_string] in H.
  injection H as ? ? ? ? ? ? ? ? ? ? ? ? ? ?. subst.
  rewrite <- Y2 in Y1. apply str_of_int_inj in Y1.
  rewrite <- M2 in M1. apply pad2_inj in M1; [|lia|lia].
  rewrite <- D2 in D1. apply pad2_inj in D1; [|lia|lia].
  rewrite <- O2 in O1. apply pad2_inj in O1; [|lia|lia].
  rewrite <- I2 in I1. apply pad2_inj in I1; [|lia|lia].
  rewrite <- S2 in S1. apply pad2_inj in S1; [|lia|lia].
  destruct d1, d2. cbn [year month day hour minute second] in *.
  subst. reflexivity.
Qed.

(** X16.  For a timestamp of the provider, the [Last-Modified] header of
    HEAD is an HTTP date: the 29 characters [Ddd, DD Mon YYYY HH:MM:SS
    GMT], with an English day name and month name. *)
Theorem head_s3_file_last_modified_is_http_date file_path response :
  head_object s3 BUCKET_NAME (encoded file_path) = inr response ->
  provider_timestamp (head_LastModified response) ->
  exists last_modified content_length,
    fst (run (head_s3_file file_path))
    = inr (Response [] 200
             [(py "Last-Modified", last_modified);
              (py "Content-Length", content_length)])
    /\ http_date last_modified = true.
Proof.
  intros Hh Ht. rewrite head_s3_file_cases, Hh. cbn [fst].
  eexists. eexists. split; [reflexivity|]. now apply strftime_http_shape.
Qed.

(** ** The listing, once more *)

Lemma utf16_bmp s :
  Forall (fun c => (c < 65536)%N) s -> Json.utf16 s = s.
Proof.
  induction 1 as [|c s Hc _ IH]; [reflexivity|].
  unfold Json.utf16 in IH |- *. cbn [flat_map]. unfold Json.utf16_cp at 1.
  replace (c <? 65536)%N with true by (symmetry; now apply N.ltb_lt).
  cbn [app]. now rewrite IH.
Qed.

Lemma item_dict_length prettify item :
  List.length (item_dict prettify item) = 3%nat.
Proof. unfold item_dict. destruct prettify; reflexivity. Qed.

Lemma generate_delivered prettify pages :
  generate prettify (List.map inr pages) =
  (py "[" :: intersperse (py ",")
               (List.map Json.dumps
                  (List.map (item_dict prettify) (all_contents pages)))
   ++ [py "]"], StopIteration).
Proof.
  unfold generate. rewrite generate_pages_ok, map_map. reflexivity.
Qed.

Lemma concat_delivered (records : list str) :
  List.concat (py "[" :: intersperse (py ",") records ++ [py "]"])
  = py "[" ++ Json.join (py ",") records ++ py "]".
Proof.
  cbn [List.concat]. rewrite concat_app, concat_intersperse.
  cbn [List.concat]. now rewrite app_nil_r.
Qed.

(** X17.  A client that parses a completed listing reads the keys of the
    provider, in the provider's order and unchanged, for keys of the Basic
    Multilingual Plane; in raw mode it reads the sizes as the integers the
    provider gave. *)
Theorem list_s3_files_keys_round_trip folder prettify pages :
  paginate s3 BUCKET_NAME (listing_prefix folder) = inr (List.map inr pages) ->
  Forall (fun item => Forall (fun c => (c < 65536)%N) (Key item))
         (all_contents pages) ->
  exists chunks records,
    fst (run (list_s3_files folder prettify))
    = inr (StreamingResponse (chunks, StopIteration) (py "application/json"))
    /\ Json.loads (List.concat chunks) = Some (JArray records)
    /\ List.map (json_get (py "Key")) records
       = List.map (fun item => Some (JString (Key item))) (all_contents pages)
    /\ (Query_bool false prettify = false ->
        List.map (json_get (py "Size")) records
        = List.map (fun item => Some (JNumber (Size item)))
            (all_contents pages)).
Proof.
  intros Hp Hk. eexists. eexists.
  rewrite list_s3_files_cases, Hp. cbn [fst].
  rewrite generate_delivered. split; [reflexivity|].
  rewrite concat_delivered. split; [|split].
  - apply loads_array. apply Forall_map, Forall_forall.
    intros item _. apply item_dict_length.
  - rewrite !map_map. apply map_ext_Forall.
    eapply Forall_impl; [|exact Hk]. cbn beta. intros item Hi.
    unfold item_dict.
    destruct (Query_bool false prettify); cbn; now rewrite (utf16_bmp Hi).
  - intros ->. rewrite !map_map. apply map_ext. intros item. reflexivity.
Qed.

Lemma generate_pages_raises prettify pages e rest : forall first_item,
  generate_pages prettify (List.map inr pages ++ inl e :: rest) first_item =
  ((if first_item
    then intersperse (py ",")
           (List.map (fun item => Json.dumps (item_dict prettify item))
              (all_contents pages))
    else prefixed (py ",")
           (List.map (fun item => Json.dumps (item_dict prettify item))
              (all_contents pages))),
   Raises e).
Proof.
  induction pages as [|response pages IH]; intros first_item.
  - destruct first_item; reflexivity.
  - cbn [List.map app generate_pages all_contents flat_map].
    fold (all_contents pages).
    set (contents := match Contents response with
                     | Some c => c
                     | None => []
                     end).
    destruct first_item.
    + rewrite generate_contents_first. destruct contents as [|item items].
      * rewrite IH. reflexivity.
      * rewrite IH. cbn [List.map app intersperse].
        unfold prefixed. rewrite map_app, flat_map_app. reflexivity.
    + rewrite generate_contents_rest, IH.
      unfold prefixed. rewrite map_app, flat_map_app. reflexivity.
Qed.

Section Truncated.

Import Json.
Local Open Scope N_scope.

Lemma parse_elements_truncated ds : forall d f,
  Forall (fun d' => (List.length d' + 2 <= 5)%nat) (d :: ds) ->
  (List.length ds + 6 <= f)%nat ->
  parse_elements f (join (py ",") (List.map dumps (d :: ds))) = None.
Proof.
  induction ds as [|d' ds IH]; intros d f Hd Hf;
    (destruct f as [|f]; [cbn in Hf; lia|]);
    inversion Hd as [|? ? Hd1 Hd2]; subst.
  - cbn [List.map join parse_elements].
    rewrite <- (app_nil_r (dumps d)).
    rewrite parse_value_dumps by (cbn in Hf; lia).
    reflexivity.
  - change (join (py ",") (List.map dumps (d :: d' :: ds)))
      with (dumps d ++ py "," ++ join (py ",") (List.map dumps (d' :: ds))).
    cbn [parse_elements].
    rewrite parse_value_dumps by (cbn in Hf; lia).
    change (py "," ++ ?x) with (44 :: x).
    cbn [skip_ws]. change (is_ws 44) with false. cbv iota.
    change (44 =? 93) with false. change (44 =? 44) with true. cbv iota.
    rewrite IH by (try assumption; cbn in Hf |- *; lia).
    reflexivity.
Qed.

(** An array of records without its closing bracket is no JSON text. *)
Lemma loads_truncated ds :
  Forall (fun d => List.length d = 3%nat) ds ->
  loads (py "[" ++ join (py ",") (List.map dumps ds)) = None.
Proof.
  intros Hds. destruct ds as [|d ds]; [reflexivity|].
  unfold loads. change (py "[" ++ ?x) with (91 :: x).
  set (text := join (py ",") (List.map dumps (d :: ds))).
  assert (Hlen : (List.length ds + 6 <= List.length (91%N :: text))%nat).
  { pose proof (join_length_ge (py ",") (List.map dumps (d :: ds))) as Hj.
    pose proof (concat_dumps_length Hds) as Hc. fold text in Hj.
    cbn [List.length] in Hc |- *. lia. }
  assert (Hsmall : Forall (fun d' : list (list N * pyval) =>
                             (List.length d' + 2 <= 5)%nat) (d :: ds)).
  { eapply Forall_impl; [|exact Hds]. cbn beta. intros a Ha. rewrite Ha. lia. }
  pose proof (@parse_elements_truncated ds d _ Hsmall Hlen) as Hp.
  fold text in Hp.
  destruct (join_dumps_first (py ",") d ds) as [r Hr]. fold text in Hr.
  clearbody text. subst text.
  rewrite parse_value_array, Hp. reflexivity.
Qed.

End Truncated.

(** X18.  When the request for a page fails, the listing has already
    started: the stream holds ["["] and the records of the pages before,
    then ends with the exception of the provider.  No closing bracket is
    written and no later page is asked for, and what was sent is not a
    JSON text. *)
Theorem list_s3_files_page_failure folder prettify pages e rest :
  paginate s3 BUCKET_NAME (listing_prefix folder)
  = inr (List.map inr pages ++ inl e :: rest) ->
  let records :=
    List.map (item_dict (Query_bool false prettify)) (all_contents pages) in
  exists chunks,
    fst (run (list_s3_files folder prettify))
    = inr (StreamingResponse (chunks, Raises e) (py "application/json"))
    /\ chunks = py "[" :: intersperse (py ",") (List.map Json.dumps records)
    /\ List.concat chunks
       = py "[" ++ Json.join (py ",") (List.map Json.dumps records)
    /\ Json.loads (List.concat chunks) = None.
Proof.
  intros Hp records. eexists.
  rewrite list_s3_files_cases, Hp. cbn [fst]. unfold generate.
  rewrite generate_pages_raises.
  rewrite <- (map_map (item_dict (Query_bool false prettify)) Json.dumps).
  fold records. split; [reflexivity|]. split; [reflexivity|].
  assert (Hc : List.concat
                 (py "[" :: intersperse (py ",") (List.map Json.dumps records))
               = py "[" ++ Json.join (py ",") (List.map Json.dumps records)).
  { cbn [List.concat]. now rewrite concat_intersperse. }
  rewrite Hc. split; [reflexivity|].
  apply loads_truncated. unfold records. apply Forall_map, Forall_forall.
  intros item _. apply item_dict_length.
Qed.

(** X19.  The stream of a completed listing depends on the entries only,
    not on how the provider cuts them into pages: two runs of pages with
    the same entries in the same order give the same chunks, and a page
    without [Contents] adds nothing. *)
Theorem generate_ignores_page_boundaries prettify pages1 pages2 :
  all_contents pages1 = all_contents pages2 ->
  generate prettify (List.map inr pages1)
  = generate prettify (List.map inr pages2).
Proof. intros H. now rewrite !generate_delivered, H. Qed.

End API.

(** * Runs on the example buckets *)

(** C1, the claim as stated fails: an expiry of 3024000 is rejected, not
    accepted. *)
Lemma expiry_3024000_is_rejected :
  rejects_expiry example_loads example_encoder example_render example_bucket example_s3
    (py "HDX/data.zip") 3024000 None
  /\ ~ accepts_expiry example_loads example_encoder example_render example_bucket example_s3
         (py "HDX/data.zip") 3024000 None.
Proof.
  split; [reflexivity|].
  intros (outcome & log & H & _). vm_compute in H. discriminate H.
Qed.

Lemma get_s3_file_expiry_range_witness :
  accepts_expiry example_loads example_encoder example_render example_bucket example_s3
    (py "HDX/data.zip") 302400 None
  /\ rejects_expiry example_loads example_encoder example_render example_bucket example_s3
       (py "HDX/data.zip") 604801 None.
Proof.
  destruct (get_s3_file_expiry_range example_loads example_encoder example_render
              example_bucket example_s3 (py "HDX/data.zip") None)
    as (_ & _ & _ & _ & Hacc & Hrej).
  split; [apply Hacc; lia | apply Hrej; lia].
Defined.

(** C2, the code at the failing input: with a client without credentials
    the handler raises nothing and returns the streaming response; its
    producer yields ["["] and then raises [NoCredentialsError]. *)
Theorem list_s3_files_credentials_fail_after_output :
  run (list_s3_files json example_naturaldate example_naturalsize
         example_bucket no_credentials_s3 None None)
  = (inr (StreamingResponse json ([py "["], Raises NoCredentialsError)
            (py "application/json")),
     [Paginate example_bucket (py "HDX/")]).
Proof. reflexivity. Qed.

(** C3, the code at the failing input: a probe the provider answers with
    403 makes the request fail with 404, not 500. *)
Theorem get_s3_file_access_denied_is_not_found :
  run (get_s3_file example_loads example_encoder example_render example_bucket forbidden_s3
         (py "HDX/meta.json") None None)
  = (inl (HTTPException 404 (py "File or folder not found: HDX/meta.json")),
     [HeadObject example_bucket (py "HDX/meta.json")]).
Proof. reflexivity. Qed.

(** C4, the code at the failing input: when the credentials are
    unavailable, the error branch of HEAD raises [AttributeError] and no
    [HTTPException] with the provider's message. *)
Theorem head_s3_file_credentials_unavailable :
  run (head_s3_file json example_bucket no_credentials_s3
         (py "HDX/meta.json"))
  = (inl (AttributeError
            (py "'NoCredentialsError' object has no attribute 'response'")),
     [HeadObject example_bucket (py "HDX/meta.json")]).
Proof. reflexivity. Qed.

Lemma list_s3_files_json_array_witness :
  exists chunks,
    fst (run (list_s3_files json example_naturaldate example_naturalsize
                example_bucket example_s3 None (Some true)))
    = inr (StreamingResponse json (chunks, StopIteration)
             (py "application/json"))
    /\ Json.loads (List.concat chunks)
       = Some (JArray
                 (List.map Json.json_of_dict
                    (List.map
                       (item_dict example_naturaldate example_naturalsize true)
                       (all_contents example_pages)))).
Proof.
  destruct (@list_s3_files_json_array json example_naturaldate
              example_naturalsize example_bucket example_s3 None (Some true)
              example_pages eq_refl)
    as (chunks & H1 & _ & _ & _ & H5 & _).
  exists chunks. split; [exact H1 | exact H5].
Defined.

Lemma example_time_is_provider_timestamp : provider_timestamp example_time.
Proof. unfold provider_timestamp, example_time. cbn. lia. Qed.

Lemma item_dict_prettify_and_raw_witness :
  dict_get (py "LastModified")
    (item_dict example_naturaldate example_naturalsize false
       {| Key := py "HDX/meta.json"; LastModified := example_time;
          Size := 6 |})
  = Some (PyStr (py "2024-01-05T03:04:59Z"))
  /\ dict_get (py "Size")
       (item_dict example_naturaldate example_naturalsize true
          {| Key := py "HDX/meta.json"; LastModified := example_time;
             Size := 6 |})
     = Some (PyStr (py "6 Bytes")).
Proof.
  destruct (@item_dict_prettify_and_raw example_naturaldate
              example_naturalsize
              {| Key := py "HDX/meta.json"; LastModified := example_time;
                 Size := 6 |}
              example_time_is_provider_timestamp)
    as (_ & _ & _ & _ & Hraw & _ & _ & _ & Hpretty).
  split; [exact Hraw | exact Hpretty].
Defined.



Lemma get_s3_file_missing_object_witness :
  run (get_s3_file example_loads example_encoder example_render example_bucket example_s3
         (py "/HDX/none.json") (Some 900%Z) (Some false))
  = (inl (HTTPException 404 (py "File or folder not found: HDX/none.json")),
     [HeadObject example_bucket (py "HDX/none.json")]).
Proof.
  eapply eq_trans;
    [eapply (@get_s3_file_missing_object pyvalue example_loads example_encoder example_render
               example_bucket example_s3 (py "/HDX/none.json") (Some 900%Z)
               900%Z (Some false));
     [split; [reflexivity | lia] | reflexivity]
    | reflexivity].
Defined.

Lemma get_s3_file_redirect_witness :
  run (get_s3_file example_loads example_encoder example_render example_bucket example_s3
         (py "/HDX/data.zip/") (Some 900%Z) None)
  = (inr (RedirectResponse pyvalue
            (py "https://production-raw-data-api.s3.amazonaws.com/HDX/data.zip?X-Amz-Expires=900")),
     [HeadObject example_bucket (py "HDX/data.zip");
      GeneratePresignedUrl example_bucket (py "HDX/data.zip") 900])
  /\ run (get_s3_file example_loads example_encoder example_render example_bucket example_s3
            (py "HDX/meta.json") None (Some false))
     = (inr (RedirectResponse pyvalue
               (py "https://production-raw-data-api.s3.amazonaws.com/HDX/meta.json?X-Amz-Expires=3600")),
        [HeadObject example_bucket (py "HDX/meta.json");
         GeneratePresignedUrl example_bucket (py "HDX/meta.json") 3600]).
Proof.
  split.
  - eapply eq_trans;
      [eapply (@get_s3_file_redirect pyvalue example_loads example_encoder example_render
                 example_bucket example_s3 (py "/HDX/data.zip/")
                 (Some 900%Z) 900%Z None);
       [split; [reflexivity | lia] | reflexivity | right; reflexivity]
      | reflexivity].
  - eapply eq_trans;
      [eapply (@get_s3_file_redirect pyvalue example_loads example_encoder example_render
                 example_bucket example_s3 (py "HDX/meta.json") None 3600%Z
                 (Some false));
       [reflexivity | reflexivity | left; reflexivity]
      | reflexivity].
Defined.

Lemma get_s3_file_probed_key_differs_witness :
  exists probed read,
    snd (run (get_s3_file example_loads example_encoder example_render example_bucket
                example_s3 (py "/HDX/a b.json") None None))
    = [HeadObject example_bucket probed; GetObject example_bucket read]
    /\ probed = py "HDX/a%20b.json"
    /\ read = py "HDX/a b.json"
    /\ probed <> read.
Proof.
  destruct (@get_s3_file_probed_key_differs pyvalue example_loads example_encoder example_render
              example_bucket example_s3 (py "/HDX/a b.json") None 3600%Z None
              {| head_LastModified := example_time; head_ContentLength := 3 |})
    as (probed & read & Hlog & Hp & Hr & Hne);
    try reflexivity.
  - intros H. vm_compute in H. discriminate H.
  - exists probed, read. repeat split; try assumption.
Defined.

Lemma head_s3_file_existing_witness :
  run (head_s3_file json example_bucket example_s3 (py "/HDX/meta.json"))
  = (inr (Response json [] 200
            [(py "Last-Modified", py "Fri, 05 Jan 2024 03:04:59 GMT");
             (py "Content-Length", py "6")]),
     [HeadObject example_bucket (py "HDX/meta.json")]).
Proof.
  eapply eq_trans;
    [eapply (@head_s3_file_existing json example_bucket example_s3
               (py "/HDX/meta.json"));
     reflexivity
    | reflexivity].
Defined.

Lemma head_s3_file_client_error_witness :
  run (head_s3_file json example_bucket example_s3 (py "HDX/none.json"))
  = (inr (Response json [] 404 []),
     [HeadObject example_bucket (py "HDX/none.json")])
  /\ run (head_s3_file json example_bucket forbidden_s3 (py "HDX/meta.json"))
     = (inl (HTTPException 500
               (py "AWS Error: An error occurred (403) when calling the HeadObject operation: Forbidden")),
        [HeadObject example_bucket (py "HDX/meta.json")]).
Proof.
  split.
  - eapply eq_trans;
      [eapply (@head_s3_file_client_error json example_bucket example_s3
                 (py "HDX/none.json"));
       reflexivity
      | reflexivity].
  - eapply eq_trans;
      [eapply (@head_s3_file_client_error json example_bucket forbidden_s3
                 (py "HDX/meta.json"));
       reflexivity
      | reflexivity].
Defined.

Lemma get_s3_file_no_credentials_witness :
  run (get_s3_file example_loads example_encoder example_render example_bucket
         no_credentials_s3 (py "HDX/meta.json") None None)
  = (inl (HTTPException 500 (py "AWS credentials not available")),
     [HeadObject example_bucket (py "HDX/meta.json")]).
Proof.
  eapply eq_trans;
    [eapply (@get_s3_file_no_credentials pyvalue example_loads example_encoder example_render
               example_bucket no_credentials_s3 (py "HDX/meta.json") None
               3600%Z None);
     reflexivity
    | reflexivity].
Defined.

Lemma list_s3_files_paginate_no_credentials_witness :
  run (list_s3_files json example_naturaldate example_naturalsize
         example_bucket eager_no_credentials_s3 (Some (py "/TM/")) None)
  = (inl (HTTPException 500 (py "AWS credentials not available")),
     [Paginate example_bucket (py "TM/")]).
Proof.
  eapply eq_trans;
    [eapply (@list_s3_files_paginate_no_credentials json example_naturaldate
               example_naturalsize example_bucket eager_no_credentials_s3
               (Some (py "/TM/")) None);
     reflexivity
    | reflexivity].
Defined.

Lemma outer_slashes_do_not_matter_witness :
  run (head_s3_file pyvalue example_bucket example_s3 (py "//HDX/meta.json/"))
  = run (head_s3_file pyvalue example_bucket example_s3 (py "HDX/meta.json")).
Proof.
  destruct (@outer_slashes_do_not_matter pyvalue example_loads example_encoder example_render
              example_naturaldate example_naturalsize example_bucket
              example_s3 (py "//") (py "/") (py "HDX/meta.json") None None
              None)
    as (_ & Hhead & _).
  - repeat constructor.
  - repeat constructor.
  - change (py "//HDX/meta.json/")
      with (py "//" ++ py "HDX/meta.json" ++ py "/").
    rewrite Hhead. reflexivity.
Defined.

Lemma encoded_is_percent_encoded_witness :
  encoded [47; 72; 68; 88; 47; 97; 32; 233; 8364; 128512; 46; 106; 115; 111;
           110]%N
  = py "HDX/a%20%C3%A9%E2%82%AC%F0%9F%98%80.json"
  /\ percent_encoded (py "HDX/a%20%C3%A9%E2%82%AC%F0%9F%98%80.json") = true.
Proof.
  destruct (@encoded_is_percent_encoded
              [47; 72; 68; 88; 47; 97; 32; 233; 8364; 128512; 46; 106; 115;
               111; 110]%N) as (H & _).
  - repeat constructor.
  - split; [reflexivity | exact H].
Defined.

Lemma quote_twice_differs_witness :
  Urllib.quote (py "a b") = py "a%20b"
  /\ Urllib.quote (Urllib.quote (py "a b")) <> Urllib.quote (py "a b").
Proof.
  split; [reflexivity|].
  apply (@quote_twice_differs (py "a b")).
  intros H. vm_compute in H. discriminate H.
Defined.

Lemma list_s3_files_output_is_ascii_witness :
  Forall (fun chunk => forallb printable chunk = true)
    [py "["; Json.dumps (item_dict example_naturaldate example_naturalsize
                           false
                           {| Key := [233; 34; 10; 128512]%N;
                              LastModified := example_time; Size := 6 |})].
Proof.
  apply (@list_s3_files_output_is_ascii json example_naturaldate
           example_naturalsize example_bucket
           {| head_object := head_object example_s3;
              get_object := get_object example_s3;
              generate_presigned_url := generate_presigned_url example_s3;
              paginate := fun _ _ =>
                inr [inr {| Contents :=
                              Some [{| Key := [233; 34; 10; 128512]%N;
                                       LastModified := example_time;
                                       Size := 6 |}] |};
                     inl (OtherError (py "EndpointConnectionError")
                            (py "Could not connect to the endpoint URL"))] |}
           None None _
           (Raises (OtherError (py "EndpointConnectionError")
                      (py "Could not connect to the endpoint URL")))
           (py "application/json")).
  reflexivity.
Defined.

Lemma head_then_get_witness :
  run (get_s3_file example_loads example_encoder example_render example_bucket example_s3
         (py "HDX/none.zip") None None)
  = (inl (HTTPException 404 (py "File or folder not found: HDX/none.zip")),
     [HeadObject example_bucket (py "HDX/none.zip")]).
Proof.
  destruct (@head_then_get pyvalue example_loads example_encoder example_render example_bucket
              example_s3 (py "HDX/none.zip") None 3600%Z None eq_refl)
    as (_ & Hmissing).
  rewrite (Hmissing eq_refl). reflexivity.
Defined.

Lemma strftime_iso_lossless_witness : example_time = example_time.
Proof.
  apply (@strftime_iso_lossless example_time example_time
           example_time_is_provider_timestamp
           example_time_is_provider_timestamp).
  reflexivity.
Defined.

Lemma head_s3_file_last_modified_is_http_date_witness :
  exists last_modified content_length,
    fst (run (head_s3_file json example_bucket example_s3
                (py "HDX/data.zip")))
    = inr (Response json [] 200
             [(py "Last-Modified", last_modified);
              (py "Content-Length", content_length)])
    /\ http_date last_modified = true.
Proof.
  apply (@head_s3_file_last_modified_is_http_date json example_bucket
           example_s3 (py "HDX/data.zip")
           {| head_LastModified := example_time; head_ContentLength := 2 |}).
  - reflexivity.
  - exact example_time_is_provider_timestamp.
Defined.

Lemma list_s3_files_keys_round_trip_witness :
  exists chunks records,
    fst (run (list_s3_files json example_naturaldate example_naturalsize
                example_bucket example_s3 None None))
    = inr (StreamingResponse json (chunks, StopIteration)
             (py "application/json"))
    /\ Json.loads (List.concat chunks) = Some (JArray records)
    /\ List.map (json_get (py "Key")) records
       = [Some (JString (py "HDX/meta.json"));
          Some (JString (py "HDX/a b.json"));
          Some (JString (py "HDX/data.zip"))].
Proof.
  destruct (@list_s3_files_keys_round_trip json example_naturaldate
              example_naturalsize example_bucket example_s3 None None
              example_pages eq_refl)
    as (chunks & records & H1 & H2 & H3 & _).
  - repeat constructor.
  - exists chunks, records. split; [exact H1 | split; [exact H2 | exact H3]].
Defined.

Lemma list_s3_files_page_failure_witness :
  exists chunks,
    fst (run (list_s3_files json example_naturaldate example_naturalsize
                example_bucket no_credentials_s3 None None))
    = inr (StreamingResponse json (chunks, Raises NoCredentialsError)
             (py "application/json"))
    /\ Json.loads (List.concat chunks) = None.
Proof.
  destruct (@list_s3_files_page_failure json example_naturaldate
              example_naturalsize example_bucket no_credentials_s3 None None
              [] NoCredentialsError [] eq_refl)
    as (chunks & H1 & _ & _ & H4).
  exists chunks. split; [exact H1 | exact H4].
Defined.

Lemma generate_ignores_page_boundaries_witness :
  generate example_naturaldate example_naturalsize false
    (List.map inr example_pages)
  = generate example_naturaldate example_naturalsize false
      (List.map inr [{| Contents := Some (all_contents example_pages) |}]).
Proof.
  apply (@generate_ignores_page_boundaries example_naturaldate
           example_naturalsize false example_pages
           [{| Contents := Some (all_contents example_pages) |}]).
  reflexivity.
Defined.
